(** * linkedin-jobs-api: the fetch-parse-paginate pipeline

    A shallow embedding of the two pipelines of the repository:
    - [Simple]: src/index.js (bounded-attempt pagination, 30-minute cache);
    - [Batch]:  src/unnamed/part_000 (the [Query] object, consecutive-error
      pagination, description enrichment, 60-minute cache).

    JavaScript strings are modelled as [string], read as sequences of code
    units below 256 (the Latin-1 range); numbers that the code only uses as
    integers are [Z]; the [Map] of the caches is a [gmap]. *)

From Stdlib Require Import ZArith Ascii String List Bool Lia.
From Stdlib Require Import Numbers.DecimalString.
From stdpp Require Import base option gmap strings.
Import ListNotations.

Local Open Scope string_scope.
Local Open Scope list_scope.
Local Open Scope Z_scope.

(* ===================================================================== *)
(** ** JavaScript strings *)
(* ===================================================================== *)

Module JsString.

(** The code units matched by [\s] and stripped by [String.prototype.trim]
    that fit in one byte: TAB, LF, VT, FF, CR, SPACE and NO-BREAK SPACE. *)
Definition is_ws (c : ascii) : bool :=
  let n := nat_of_ascii c in
  ((9 <=? n)%nat && (n <=? 13)%nat) || (n =? 32)%nat || (n =? 160)%nat.

(** A string is truthy when it is not empty. *)
Definition truthy (s : string) : bool :=
  match s with EmptyString => false | String _ _ => true end.

(** [a || b] on two strings. *)
Definition or_else (a b : string) : string := if truthy a then a else b.

Fixpoint trim_start (s : string) : string :=
  match s with
  | EmptyString => EmptyString
  | String c s' => if is_ws c then trim_start s' else s
  end.

Fixpoint all_ws (s : string) : bool :=
  match s with
  | EmptyString => true
  | String c s' => is_ws c && all_ws s'
  end.

Fixpoint trim_end (s : string) : string :=
  match s with
  | EmptyString => EmptyString
  | String c s' => if all_ws s then EmptyString else String c (trim_end s')
  end.

(** Does [s] hold a white space code unit? *)
Fixpoint has_ws (s : string) : bool :=
  match s with
  | EmptyString => false
  | String c s' => is_ws c || has_ws s'
  end.

(** [s.trim()] *)
Definition trim (s : string) : string := trim_end (trim_start s).

(** [s.replace(/\s+/g, rep)]: every maximal run of white space becomes one
    copy of [rep]; [in_run] tells that the previous code unit was white
    space, whose run has been replaced already. *)
Fixpoint replace_ws_from (rep : string) (in_run : bool) (s : string) : string :=
  match s with
  | EmptyString => EmptyString
  | String c s' =>
      if is_ws c
      then (if in_run then replace_ws_from rep true s'
            else rep +:+ replace_ws_from rep true s')
      else String c (replace_ws_from rep false s')
  end.

Definition replace_ws_runs (rep : string) (s : string) : string :=
  replace_ws_from rep false s.

(** [s.toLowerCase()] on code units below 256. *)
Definition lower_char (c : ascii) : ascii :=
  let n := nat_of_ascii c in
  if ((65 <=? n)%nat && (n <=? 90)%nat)
     || ((192 <=? n)%nat && (n <=? 222)%nat && negb (n =? 215)%nat)
  then ascii_of_nat (n + 32) else c.

Fixpoint toLowerCase (s : string) : string :=
  match s with
  | EmptyString => EmptyString
  | String c s' => String (lower_char c) (toLowerCase s')
  end.

(** [String(n)] for an integral number. *)
Definition of_Z (n : Z) : string := NilZero.string_of_int (Z.to_int n).

(** [haystack.includes(needle)] *)
Fixpoint includes (needle haystack : string) : bool :=
  String.prefix needle haystack
  || match haystack with
     | EmptyString => false
     | String _ h' => includes needle h'
     end.

End JsString.

(* ===================================================================== *)
(** ** URL encoding *)
(* ===================================================================== *)

Module Url.

Definition hex_digit (n : nat) : ascii :=
  match String.get n "0123456789ABCDEF" with
  | Some c => c
  | None => "0"%char
  end.

(** [%XX] for one byte. *)
Definition percent_byte (b : nat) : string :=
  String "%" (String (hex_digit (b / 16)) (String (hex_digit (b mod 16)) EmptyString)).

(** The UTF-8 bytes of a code unit below 256. *)
Definition utf8_bytes (c : ascii) : list nat :=
  let n := nat_of_ascii c in
  if (n <? 128)%nat then [n] else [(192 + n / 64)%nat; (128 + n mod 64)%nat].

Definition is_alnum (c : ascii) : bool :=
  let n := nat_of_ascii c in
  ((48 <=? n)%nat && (n <=? 57)%nat)
  || ((65 <=? n)%nat && (n <=? 90)%nat)
  || ((97 <=? n)%nat && (n <=? 122)%nat).

Definition one_of (set : string) (c : ascii) : bool :=
  existsb (Ascii.eqb c) (list_ascii_of_string set).

Definition percent_char (c : ascii) : string :=
  fold_right (fun b acc => percent_byte b +:+ acc) EmptyString (utf8_bytes c).

(** [encodeURIComponent]: everything is escaped but the alphanumerics and
    [- _ . ! ~ * ' ( )]. *)
Definition uri_unreserved (c : ascii) : bool :=
  is_alnum c || one_of "-_.!~*'()" c.

Fixpoint encodeURIComponent (s : string) : string :=
  match s with
  | EmptyString => EmptyString
  | String c s' =>
      (if uri_unreserved c then String c EmptyString else percent_char c)
      +:+ encodeURIComponent s'
  end.

(** The application/x-www-form-urlencoded serializer behind
    [URLSearchParams.prototype.toString]: the alphanumerics and [* - . _]
    are kept, a space becomes [+], everything else is escaped. *)
Definition form_safe (c : ascii) : bool :=
  is_alnum c || one_of "*-._" c.

Fixpoint form_encode (s : string) : string :=
  match s with
  | EmptyString => EmptyString
  | String c s' =>
      (if form_safe c then String c EmptyString
       else if Ascii.eqb c " " then "+"
       else percent_char c)
      +:+ form_encode s'
  end.

(** [new URLSearchParams()] with [append] and [toString]. *)
Definition URLSearchParams := list (string * string).

Definition append (name value : string) (params : URLSearchParams) : URLSearchParams :=
  (params ++ [(name, value)])%list.

Definition pair_toString (p : string * string) : string :=
  form_encode (fst p) +:+ "=" +:+ form_encode (snd p).

Fixpoint toString (params : URLSearchParams) : string :=
  match params with
  | [] => EmptyString
  | [p] => pair_toString p
  | p :: rest => pair_toString p +:+ "&" +:+ toString rest
  end.

(** The names of the parameters, in order. *)
Definition names (params : URLSearchParams) : list string := map fst params.

End Url.

(* ===================================================================== *)
(** ** JavaScript values read from an object literal *)
(* ===================================================================== *)

Module JsObject.

(** What [table[key]] can evaluate to when [table] is an object literal with
    string values: an own property, nothing, or a property inherited from
    [Object.prototype]. *)
Inductive value :=
| Undefined
| Str (s : string)
| NativeFunction (name : string)
| ObjectPrototype.

Definition truthy (v : value) : bool :=
  match v with
  | Undefined => false
  | Str s => JsString.truthy s
  | NativeFunction _ | ObjectPrototype => true
  end.

(** [a || b] *)
Definition or_else (a b : value) : value := if truthy a then a else b.

(** [String(v)], as [URLSearchParams.append] converts its argument. *)
Definition to_string (v : value) : string :=
  match v with
  | Undefined => "undefined"
  | Str s => s
  | NativeFunction name => "function " +:+ name +:+ "() { [native code] }"
  | ObjectPrototype => "[object Object]"
  end.

(** The methods every object inherits from [Object.prototype]. *)
Definition prototype_methods : list string :=
  [ "hasOwnProperty"; "isPrototypeOf"; "propertyIsEnumerable";
    "toLocaleString"; "toString"; "valueOf";
    "__defineGetter__"; "__defineSetter__";
    "__lookupGetter__"; "__lookupSetter__" ].

Definition prototype_get (key : string) : value :=
  if String.eqb key "constructor" then NativeFunction "Object"
  else if String.eqb key "__proto__" then ObjectPrototype
  else if existsb (String.eqb key) prototype_methods then NativeFunction key
  else Undefined.

Fixpoint own_get (props : list (string * string)) (key : string) : option string :=
  match props with
  | [] => None
  | (k, v) :: rest => if String.eqb k key then Some v else own_get rest key
  end.

(** [table[key]]: own properties first, then the prototype. *)
Definition get (props : list (string * string)) (key : string) : value :=
  match own_get props key with
  | Some v => Str v
  | None => prototype_get key
  end.

End JsObject.

(* ===================================================================== *)
(** ** The outside world: markup, requests, errors *)
(* ===================================================================== *)

(** What the code observes of a cheerio selection [job]:
    [job.find(sel).text()] and [job.find(sel).attr(name)]. *)
Record element := {
  find_text : string -> string;
  find_attr : string -> string -> option string
}.

(** What the code observes of a loaded document [$]: the list items
    [$("li")] and the text [$(sel).text()] of a selector. *)
Record document := {
  list_items : list element;
  select_text : string -> string
}.

(** [response.data]: an empty string, markup that [cheerio.load] accepts, or
    something on which it throws. *)
Inductive body :=
| EmptyBody
| Html (d : document)
| Unparsable.

(** The outcome of [axios.get]: a response with its status, or no response
    at all (time-out, connection error). *)
Inductive http_outcome :=
| Response (status : Z) (data : body)
| NetworkError.

Inductive error :=
| RequestFailed (status : option Z)
| RateLimitReached
| ParseFailed
| UriMalformed.

(** The completion of a block: a value, or a thrown error. *)
Inductive completion (A : Type) :=
| Normal (a : A)
| Abrupt (e : error).
Arguments Normal {A} a.
Arguments Abrupt {A} e.

Definition bind {A B} (c : completion A) (k : A -> completion B) : completion B :=
  match c with
  | Normal a => k a
  | Abrupt e => Abrupt e
  end.

(** [try { c } catch (error) { handler error }] *)
Definition try_catch {A} (c : completion A) (handler : error -> completion A) : completion A :=
  match c with
  | Normal a => Normal a
  | Abrupt e => handler e
  end.

Notation "'let*' x := c 'in' k" := (bind c (fun x => k))
  (at level 10, x name, c at level 100, k at level 200).

(** axios's default [validateStatus]. *)
Definition status_2xx (status : Z) : bool := (200 <=? status) && (status <? 300).

(** [await axios.get(url, { validateStatus })]: the response data, or a throw. *)
Definition axios_get (validateStatus : Z -> bool) (o : http_outcome) : completion body :=
  match o with
  | Response status data =>
      if validateStatus status then Normal data
      else Abrupt (RequestFailed (Some status))
  | NetworkError => Abrupt (RequestFailed None)
  end.

Definition empty_document : document :=
  {| list_items := []; select_text := fun _ => EmptyString |}.

(** [cheerio.load(data)] *)
Definition cheerio_load (data : body) : completion document :=
  match data with
  | EmptyBody => Normal empty_document
  | Html d => Normal d
  | Unparsable => Abrupt ParseFailed
  end.

(** [attr(...) || ""] *)
Definition attr_or_empty (a : option string) : string :=
  match a with
  | Some s => s
  | None => EmptyString
  end.

Record JobRecord := {
  position : string;
  company : string;
  location : string;
  date : option string;
  salary : string;
  jobUrl : string;
  companyLogo : string;
  agoTime : string;
  description : string
}.

(** What a crawl does to the outside world, in order. *)
Inductive effect :=
| Request (url : string)
| Backoff (ms : Z)
| Jitter (base span : Z).

(** The position and the company that both parsers extract from an item. *)
Definition extracted_position (job : element) : string :=
  JsString.trim (find_text job ".base-search-card__title").

Definition extracted_company (job : element) : string :=
  JsString.trim (find_text job ".base-search-card__subtitle").

(** The two fields of a record, and of an item, that decide whether it is kept. *)
Definition position_company (r : JobRecord) : string * string :=
  (position r, company r).

Definition extracted (job : element) : string * string :=
  (extracted_position job, extracted_company job).

Definition both_present (pc : string * string) : bool :=
  JsString.truthy (fst pc) && JsString.truthy (snd pc).

(** An item that answers [texts sel] to [find(sel).text()] and [attrs sel name]
    to [find(sel).attr(name)]. *)
Definition item (texts : string -> string) (attrs : string -> string -> option string)
  : element :=
  {| find_text := texts; find_attr := attrs |}.

(** A list item with the given title and subtitle and nothing else. *)
Definition card (title subtitle : string) : element :=
  item (fun sel =>
          if String.eqb sel ".base-search-card__title" then title
          else if String.eqb sel ".base-search-card__subtitle" then subtitle
          else EmptyString)
       (fun _ _ => None).

(** A fragment made of the given list items. *)
Definition fragment (items : list element) : body :=
  Html {| list_items := items; select_text := fun _ => EmptyString |}.

(** A detail page whose two description containers hold the given texts. *)
Definition detail_page (primary fallback : string) : document :=
  {| list_items := [];
     select_text := fun sel =>
       if String.eqb sel ".description__text .show-more-less-html" then primary
       else if String.eqb sel ".show-more-less-html__markup" then fallback
       else EmptyString |}.

(** A record as the batch parser builds it from a complete card. *)
Definition sample_record : JobRecord :=
  {| position := "Engineer"; company := "Acme"; location := ""; date := None;
     salary := "Not specified"; jobUrl := ""; companyLogo := ""; agoTime := "";
     description := "" |}.

(** A listing page of [n] complete cards. *)
Definition page_of (n : nat) : body :=
  fragment (repeat (card "Engineer" "Acme") n).

(** The back-off sleeps of a crawl, in order. *)
Fixpoint backoffs (tr : list effect) : list Z :=
  match tr with
  | [] => []
  | Backoff ms :: tr' => ms :: backoffs tr'
  | _ :: tr' => backoffs tr'
  end.

(** The requests of a crawl, in order. *)
Fixpoint requests (tr : list effect) : list string :=
  match tr with
  | [] => []
  | Request url :: tr' => url :: requests tr'
  | _ :: tr' => requests tr'
  end.

(** An entry of a [JobCache]: [{ data, timestamp }]. *)
Record CacheEntry (A : Type) := {
  data : A;
  timestamp : Z
}.
Arguments data {A} _.
Arguments timestamp {A} _.

(** How one turn of a [while] loop ends: [break], or on to the next turn. *)
Inductive control (S : Type) :=
| Break (st : S)
| Continue (st : S).
Arguments Break {S} st.
Arguments Continue {S} st.

(** The state a turn of a loop ends in. *)
Definition state_of {S : Type} (c : control S) : S :=
  match c with
  | Break st => st
  | Continue st => st
  end.

(* ===================================================================== *)
(** ** src/index.js: the simple pipeline *)
(* ===================================================================== *)

Module Simple.

(** [safeRequest(url)]: the response data, [null] on any failure. *)
Definition safeRequest (o : http_outcome) : option body :=
  match try_catch (let* data := axios_get status_2xx o in Normal (Some data))
                  (fun _ => Normal None) with
  | Normal r => r
  | Abrupt _ => None
  end.

(** [!data]: [null] and the empty string are falsy. *)
Definition falsy (data : option body) : bool :=
  match data with
  | None | Some EmptyBody => true
  | Some _ => false
  end.

(** The object built for one [li]. *)
Definition parseJob (job : element) : JobRecord :=
  {| position := JsString.trim (find_text job ".base-search-card__title");
     company := JsString.trim (find_text job ".base-search-card__subtitle");
     location := JsString.trim (find_text job ".job-search-card__location");
     date := Some (attr_or_empty (find_attr job "time" "datetime"));
     salary :=
       JsString.or_else
         (JsString.replace_ws_runs " "
            (JsString.trim (find_text job ".job-search-card__salary-info")))
         "Not specified";
     jobUrl := attr_or_empty (find_attr job ".base-card__full-link" "href");
     companyLogo := attr_or_empty (find_attr job ".artdeco-entity-image" "data-delayed-url");
     agoTime := JsString.trim (find_text job ".job-search-card__listdate");
     description := JsString.trim (find_text job ".job-search-card__snippet") |}.

(** [parseJobList(jobData)]: every object is truthy, so [filter(Boolean)]
    keeps them all; a throw of [cheerio.load] gives the empty list. *)
Definition parseJobList (jobData : body) : list JobRecord :=
  match try_catch (let* doc := cheerio_load jobData in
                   Normal (map parseJob (list_items doc)))
                  (fun _ => Normal []) with
  | Normal l => l
  | Abrupt _ => []
  end.

(** [class JobCache] *)
Module JobCache.
Definition TTL : Z := 1000 * 60 * 30.

Definition get {A} (cache : gmap string (CacheEntry A)) (key : string) (now : Z)
  : option A :=
  match cache !! key with
  | Some entry => if now - timestamp entry <? TTL then Some (data entry) else None
  | None => None
  end.

Definition set {A} (cache : gmap string (CacheEntry A)) (key : string) (value : A)
           (now : Z) : gmap string (CacheEntry A) :=
  <[ key := {| data := value; timestamp := now |} ]> cache.
End JobCache.

(** The variables of [fetchLinkedInJobs], and what it has done so far. *)
Record crawl := {
  jobs : list JobRecord;
  start : Z;
  attempts : Z;
  trace : list effect
}.

Definition page_url (keyword location : string) (start : Z) : string :=
  "https://www.linkedin.com/jobs-guest/jobs/api/seeMoreJobPostings/search?keywords="
  +:+ Url.encodeURIComponent keyword
  +:+ "&location=" +:+ Url.encodeURIComponent location
  +:+ "&start=" +:+ JsString.of_Z start.

(** What happens in one turn of the loop: an error is raised inside the
    [try] block (neither [safeRequest] nor [parseJobList] lets one out, so
    it comes from the rest of the block), or the request is made and ends
    as [o]. *)
Inductive turn :=
| Throws (e : error)
| Responds (o : http_outcome).

(** The [try] block. *)
Definition attempt (keyword location : string) (t : turn) (st : crawl)
  : completion (control crawl) :=
  match t with
  | Throws e => Abrupt e
  | Responds o =>
      let url := page_url keyword location (start st) in
      let requested := trace st ++ [Jitter 2000 2000; Request url] in
      let data := safeRequest o in
      if falsy data then
        Normal (Break {| jobs := jobs st; start := start st;
                         attempts := attempts st; trace := requested |})
      else
        let newJobs := match data with Some d => parseJobList d | None => [] end in
        if (length newJobs =? 0)%nat then
          Normal (Break {| jobs := jobs st; start := start st;
                           attempts := attempts st; trace := requested |})
        else
          Normal (Continue {| jobs := jobs st ++ newJobs; start := start st + 25;
                              attempts := 0; trace := requested |})
  end.

(** The [catch] block. *)
Definition retry_later (st : crawl) : crawl :=
  let attempts' := attempts st + 1 in
  {| jobs := jobs st; start := start st; attempts := attempts';
     trace := trace st ++ [Backoff (5000 * attempts')] |}.

(** One turn: [try { ... } catch (error) { ... }]. *)
Definition iteration (keyword location : string) (t : turn) (st : crawl)
  : control crawl :=
  match attempt keyword location t st with
  | Normal c => c
  | Abrupt _ => Continue (retry_later st)
  end.

(** [while (attempts < 5) { ... }], one element of [turns] per turn; [None]
    when the turns run out while the loop is still going. *)
Fixpoint loop (keyword location : string) (turns : list turn) (st : crawl)
  : option crawl :=
  if attempts st <? 5 then
    match turns with
    | [] => None
    | t :: turns' =>
        match iteration keyword location t st with
        | Break st' => Some st'
        | Continue st' => loop keyword location turns' st'
        end
    end
  else Some st.

Definition initial : crawl :=
  {| jobs := []; start := 0; attempts := 0; trace := [] |}.

(** [fetchLinkedInJobs(keyword, location)]: the jobs returned, with what the
    crawl did. *)
Definition fetchLinkedInJobs (keyword location : string) (turns : list turn)
  : option (list JobRecord * list effect) :=
  match loop keyword location turns initial with
  | Some st => Some (jobs st, trace st)
  | None => None
  end.

End Simple.

(* ===================================================================== *)
(** ** src/unnamed/part_000: the batch pipeline *)
(* ===================================================================== *)

Module Batch.

Definition not_available : string := "Description not available".

(** The [try] block of [fetchJobDescription]. *)
Definition fetchJobDescription_try (o : http_outcome) : completion string :=
  let* data := axios_get status_2xx o in
  let* doc := cheerio_load data in
  let description :=
    JsString.trim (select_text doc ".description__text .show-more-less-html") in
  let description :=
    if negb (JsString.truthy description)
    then JsString.trim (select_text doc ".show-more-less-html__markup")
    else description in
  Normal (JsString.or_else description not_available).

(** [fetchJobDescription(jobUrl)], [o] being how the request for [jobUrl]
    ends. *)
Definition fetchJobDescription (o : http_outcome) : completion string :=
  try_catch (fetchJobDescription_try o) (fun _ => Normal not_available).

(** The callback of [jobs.map] in [parseJobList]: [null] is [None].
    [detail] tells how the request for a job's detail page ends. *)
Definition parseJob (detail : string -> http_outcome) (job : element)
  : completion (option JobRecord) :=
  let position := JsString.trim (find_text job ".base-search-card__title") in
  let company := JsString.trim (find_text job ".base-search-card__subtitle") in
  let location := JsString.trim (find_text job ".job-search-card__location") in
  let date := find_attr job "time" "datetime" in
  let salary :=
    JsString.replace_ws_runs " "
      (JsString.trim (find_text job ".job-search-card__salary-info")) in
  let jobUrl := find_attr job ".base-card__full-link" "href" in
  let companyLogo := find_attr job ".artdeco-entity-image" "data-delayed-url" in
  let agoTime := JsString.trim (find_text job ".job-search-card__listdate") in
  let* description :=
    if JsString.truthy (attr_or_empty jobUrl)
    then fetchJobDescription (detail (attr_or_empty jobUrl))
    else Normal EmptyString in
  if negb (JsString.truthy position) || negb (JsString.truthy company) then
    Normal None
  else
    Normal (Some {| position := position;
                    company := company;
                    location := location;
                    date := date;
                    salary := JsString.or_else salary "Not specified";
                    jobUrl := attr_or_empty jobUrl;
                    companyLogo := attr_or_empty companyLogo;
                    agoTime := agoTime;
                    description := description |}).

(** The callback with its own [try]/[catch]: a throw gives [null]. *)
Definition parseJob_caught (detail : string -> http_outcome) (job : element)
  : option JobRecord :=
  match try_catch (parseJob detail job) (fun _ => Normal None) with
  | Normal r => r
  | Abrupt _ => None
  end.

(** [parseJobList(jobData)]: [(await Promise.all(jobPromises)).filter(Boolean)]. *)
Definition parseJobList (detail : string -> http_outcome) (jobData : body)
  : list JobRecord :=
  match try_catch (let* doc := cheerio_load jobData in
                   Normal (omap (parseJob_caught detail) (list_items doc)))
                  (fun _ => Normal []) with
  | Normal l => l
  | Abrupt _ => []
  end.

(** [class JobCache] *)
Module JobCache.
Definition TTL : Z := 1000 * 60 * 60.

Definition set {A} (cache : gmap string (CacheEntry A)) (key : string) (value : A)
           (now : Z) : gmap string (CacheEntry A) :=
  <[ key := {| data := value; timestamp := now |} ]> cache.

(** [get(key)] deletes an expired entry: the cache comes back with the
    result. *)
Definition get {A} (cache : gmap string (CacheEntry A)) (key : string) (now : Z)
  : option A * gmap string (CacheEntry A) :=
  match cache !! key with
  | None => (None, cache)
  | Some item =>
      if now - timestamp item >? TTL then (None, delete key cache)
      else (Some (data item), cache)
  end.

(** [clear()]: every expired entry goes. *)
Definition clear {A} (cache : gmap string (CacheEntry A)) (now : Z)
  : gmap string (CacheEntry A) :=
  filter (fun kv => negb (now - timestamp (snd kv) >? TTL) = true) cache.
End JobCache.

(** The argument of [new Query(queryObj)]; an absent field is [None].
    [limit] and [page] hold the integer that [Number(...)] makes of the
    field, [None] when it makes [NaN]. *)
Record queryObj := {
  q_host : option string;
  q_keyword : option string;
  q_location : option string;
  q_dateSincePosted : option string;
  q_jobType : option string;
  q_remoteFilter : option string;
  q_salary : option string;
  q_experienceLevel : option string;
  q_sortBy : option string;
  q_limit : option Z;
  q_page : option Z
}.

Record Query := {
  host : string;
  keyword : string;
  location : string;
  dateSincePosted : string;
  jobType : string;
  remoteFilter : string;
  salary : string;
  experienceLevel : string;
  sortBy : string;
  limit : Z;
  page : Z
}.

(** [field || fallback] *)
Definition field_or (field : option string) (fallback : string) : string :=
  JsString.or_else (attr_or_empty field) fallback.

(** [field?.trim().replace(/\s+/g, "+") || ""] *)
Definition plus_joined (field : option string) : string :=
  match field with
  | Some s => JsString.or_else (JsString.replace_ws_runs "+" (JsString.trim s)) ""
  | None => ""
  end.

(** [Number(field) || 0] *)
Definition number_or_zero (field : option Z) : Z :=
  match field with
  | Some n => n
  | None => 0
  end.

(** [function Query(queryObj)] *)
Definition new_Query (o : queryObj) : Query :=
  {| host := field_or (q_host o) "www.linkedin.com";
     keyword := plus_joined (q_keyword o);
     location := plus_joined (q_location o);
     dateSincePosted := field_or (q_dateSincePosted o) "";
     jobType := field_or (q_jobType o) "";
     remoteFilter := field_or (q_remoteFilter o) "";
     salary := field_or (q_salary o) "";
     experienceLevel := field_or (q_experienceLevel o) "";
     sortBy := field_or (q_sortBy o) "";
     limit := number_or_zero (q_limit o);
     page := number_or_zero (q_page o) |}.

Definition dateRange : list (string * string) :=
  [ ("past month", "r2592000"); ("past week", "r604800"); ("24hr", "r86400") ].

Definition experienceRange : list (string * string) :=
  [ ("internship", "1"); ("entry level", "2"); ("associate", "3");
    ("senior", "4"); ("director", "5"); ("executive", "6") ].

Definition jobTypeRange : list (string * string) :=
  [ ("full time", "F"); ("full-time", "F"); ("part time", "P"); ("part-time", "P");
    ("contract", "C"); ("temporary", "T"); ("volunteer", "V"); ("internship", "I") ].

Definition remoteFilterRange : list (string * string) :=
  [ ("on-site", "1"); ("on site", "1"); ("remote", "2"); ("hybrid", "3") ].

Definition salaryRange : list (string * string) :=
  [ ("40000", "1"); ("60000", "2"); ("80000", "3"); ("100000", "4"); ("120000", "5") ].

(** [table[key] || ""] *)
Definition lookup_or_empty (table : list (string * string)) (key : string)
  : JsObject.value :=
  JsObject.or_else (JsObject.get table key) (JsObject.Str "").

Definition getDateSincePosted (q : Query) : JsObject.value :=
  lookup_or_empty dateRange (JsString.toLowerCase (dateSincePosted q)).

Definition getExperienceLevel (q : Query) : JsObject.value :=
  lookup_or_empty experienceRange (JsString.toLowerCase (experienceLevel q)).

Definition getJobType (q : Query) : JsObject.value :=
  lookup_or_empty jobTypeRange (JsString.toLowerCase (jobType q)).

Definition getRemoteFilter (q : Query) : JsObject.value :=
  lookup_or_empty remoteFilterRange (JsString.toLowerCase (remoteFilter q)).

Definition getSalary (q : Query) : JsObject.value :=
  lookup_or_empty salaryRange (salary q).

Definition getPage (q : Query) : Z := page q * 25.

(** [if (v) params.append(name, v)] *)
Definition append_if (name : string) (v : JsObject.value) (params : Url.URLSearchParams)
  : Url.URLSearchParams :=
  if JsObject.truthy v then Url.append name (JsObject.to_string v) params else params.

(** The [URLSearchParams] that [url(start)] fills. *)
Definition url_params (q : Query) (start : Z) : Url.URLSearchParams :=
  let params := [] in
  let params := append_if "keywords" (JsObject.Str (keyword q)) params in
  let params := append_if "location" (JsObject.Str (location q)) params in
  let params := append_if "f_TPR" (getDateSincePosted q) params in
  let params := append_if "f_SB2" (getSalary q) params in
  let params := append_if "f_E" (getExperienceLevel q) params in
  let params := append_if "f_WT" (getRemoteFilter q) params in
  let params := append_if "f_JT" (getJobType q) params in
  let params := Url.append "start" (JsString.of_Z (start + getPage q)) params in
  if String.eqb (sortBy q) "recent" then Url.append "sortBy" "DD" params
  else if String.eqb (sortBy q) "relevant" then Url.append "sortBy" "R" params
  else params.

(** [Query.prototype.url] *)
Definition url (q : Query) (start : Z) : string :=
  "https://" +:+ host q +:+ "/jobs-guest/jobs/api/seeMoreJobPostings/search?"
  +:+ Url.toString (url_params q start).

(** [fetchJobBatch(start)], [o] being how the request for [url(start)]
    ends: only status 200 is accepted, and a 429 is rethrown as a rate
    limit error. *)
Definition fetchJobBatch (detail : string -> http_outcome) (o : http_outcome)
  : completion (list JobRecord) :=
  try_catch (let* data := axios_get (fun status => status =? 200) o in
             Normal (parseJobList detail data))
            (fun error =>
               match error with
               | RequestFailed (Some 429) => Abrupt RateLimitReached
               | _ => Abrupt error
               end).

(** [array.slice(0, n)] for an integer [n]: a negative [n] counts from the
    end. *)
Definition slice_to {A} (n : Z) (l : list A) : list A :=
  if n <? 0 then firstn (Z.to_nat (Z.of_nat (length l) + n)) l
  else firstn (Z.to_nat n) l.

Definition BATCH_SIZE : Z := 25.
Definition MAX_CONSECUTIVE_ERRORS : Z := 3.

(** The variables of [getJobs], and what it has done so far. *)
Record crawl := {
  allJobs : list JobRecord;
  start : Z;
  consecutiveErrors : Z;
  trace : list effect
}.

(** The [try] block of the loop, after [fetchJobBatch] returned [jobs]. *)
Definition fetched (q : Query) (jobs : list JobRecord) (st : crawl) : control crawl :=
  if (length jobs =? 0)%nat then Break st
  else
    let all := allJobs st ++ jobs in
    if negb (limit q =? 0) && (Z.of_nat (length all) >=? limit q) then
      Break {| allJobs := slice_to (limit q) all; start := start st;
               consecutiveErrors := consecutiveErrors st; trace := trace st |}
    else
      Continue {| allJobs := all; start := start st + BATCH_SIZE;
                  consecutiveErrors := 0;
                  trace := trace st ++ [Jitter 2000 1000] |}.

(** The [catch] block of the loop. *)
Definition failed (st : crawl) : control crawl :=
  let errors := consecutiveErrors st + 1 in
  if errors >=? MAX_CONSECUTIVE_ERRORS then
    Break {| allJobs := allJobs st; start := start st;
             consecutiveErrors := errors; trace := trace st |}
  else
    Continue {| allJobs := allJobs st; start := start st;
                consecutiveErrors := errors;
                trace := trace st ++ [Backoff (2 ^ errors * 1000)] |}.

(** One turn of [while (hasMore)]. *)
Definition iteration (q : Query) (detail : string -> http_outcome)
           (o : http_outcome) (st : crawl) : control crawl :=
  let st := {| allJobs := allJobs st; start := start st;
               consecutiveErrors := consecutiveErrors st;
               trace := trace st ++ [Request (url q (start st))] |} in
  match fetchJobBatch detail o with
  | Normal jobs => fetched q jobs st
  | Abrupt _ => failed st
  end.

(** [while (hasMore) { ... }], one element of [outcomes] per batch request;
    [None] when they run out while the loop is still going. *)
Fixpoint loop (q : Query) (detail : string -> http_outcome)
         (outcomes : list http_outcome) (st : crawl) : option crawl :=
  match outcomes with
  | [] => None
  | o :: outcomes' =>
      match iteration q detail o st with
      | Break st' => Some st'
      | Continue st' => loop q detail outcomes' st'
      end
  end.

Definition initial : crawl :=
  {| allJobs := []; start := 0; consecutiveErrors := 0; trace := [] |}.

(** What [getJobs] leaves behind: the value it resolves to, the cache, and
    what the crawl did. *)
Record crawled := {
  returned : list JobRecord;
  cache_after : gmap string (CacheEntry (list JobRecord));
  effects : list effect
}.

(** [Query.prototype.getJobs]. [t_get] is the clock when the cache is read,
    [t_set] when it is written. *)
Definition getJobs (q : Query) (cache : gmap string (CacheEntry (list JobRecord)))
           (t_get t_set : Z) (detail : string -> http_outcome)
           (outcomes : list http_outcome) : option crawled :=
  let cacheKey := url q 0 in
  let (cachedJobs, cache) := JobCache.get cache cacheKey t_get in
  match cachedJobs with
  | Some cachedJobs =>
      Some {| returned := cachedJobs; cache_after := cache; effects := [] |}
  | None =>
      match loop q detail outcomes initial with
      | None => None
      | Some st =>
          let cache :=
            if (0 <? length (allJobs st))%nat
            then JobCache.set cache (url q 0) (allJobs st) t_set
            else cache in
          Some {| returned := allJobs st; cache_after := cache; effects := trace st |}
      end
  end.

(** The request for a batch fails: no response, or a status other than
    200. *)
Definition rejected (o : http_outcome) : bool :=
  match o with
  | Response status _ => negb (status =? 200)
  | NetworkError => true
  end.

(** A [queryObj] with no field at all, with a keyword only, and with an
    experience level only. *)
Definition no_options : queryObj :=
  {| q_host := None; q_keyword := None; q_location := None;
     q_dateSincePosted := None; q_jobType := None; q_remoteFilter := None;
     q_salary := None; q_experienceLevel := None; q_sortBy := None;
     q_limit := None; q_page := None |}.

Definition keyword_only (kw : string) : queryObj :=
  {| q_host := None; q_keyword := Some kw; q_location := None;
     q_dateSincePosted := None; q_jobType := None; q_remoteFilter := None;
     q_salary := None; q_experienceLevel := None; q_sortBy := None;
     q_limit := None; q_page := None |}.

Definition experience_only (level : string) : queryObj :=
  {| q_host := None; q_keyword := None; q_location := None;
     q_dateSincePosted := None; q_jobType := None; q_remoteFilter := None;
     q_salary := None; q_experienceLevel := Some level; q_sortBy := None;
     q_limit := None; q_page := None |}.

Definition limit_only (n : Z) : queryObj :=
  {| q_host := None; q_keyword := None; q_location := None;
     q_dateSincePosted := None; q_jobType := None; q_remoteFilter := None;
     q_salary := None; q_experienceLevel := None; q_sortBy := None;
     q_limit := Some n; q_page := None |}.

(** The query built from no option, and the one asking for "mechanical
    engineer". *)
Definition plain_query : Query := new_Query no_options.
Definition engineer_query : Query := new_Query (keyword_only "mechanical engineer").

(** A cache holding one entry, written at time 0, under the key of
    [plain_query]. *)
Definition stale_cache : gmap string (CacheEntry (list JobRecord)) :=
  {[ url plain_query 0 := {| data := [sample_record]; timestamp := 0 |} ]}.

(** [module.exports.query] *)
Definition query (o : queryObj) := getJobs (new_Query o).

End Batch.

(* ===================================================================== *)
(** ** The two [/jobs] endpoints *)
(* ===================================================================== *)

(** What a handler sends: [res.json(jobs)], or
    [res.status(500).json({ error })]. *)
Inductive reply :=
| Json (jobs : list JobRecord)
| Status500 (message : string).

(** [app.get('/jobs', ...)] of src/index.js. *)
Module SimpleServer.

(** [req.query]: an absent parameter is [None]. *)
Record request := {
  r_keyword : option string;
  r_location : option string
}.

(** [const { field = fallback } = req.query]: the default stands in for an
    absent field only. *)
Definition defaulted (field : option string) (fallback : string) : string :=
  match field with
  | Some s => s
  | None => fallback
  end.

(** [`${keyword}-${location}`] *)
Definition cacheKey (keyword location : string) : string :=
  keyword +:+ "-" +:+ location.

(** The handler: the reply, the cache it leaves and what the crawl did;
    [None] when the turns run out while the crawl is still going. *)
Definition jobs_endpoint (req : request)
           (cache : gmap string (CacheEntry (list JobRecord)))
           (t_get t_set : Z) (turns : list Simple.turn)
  : option (reply * gmap string (CacheEntry (list JobRecord)) * list effect) :=
  let keyword := defaulted (r_keyword req) "mechanical engineer" in
  let location := defaulted (r_location req) "United States" in
  let key := cacheKey keyword location in
  match Simple.JobCache.get cache key t_get with
  | Some cached => Some (Json cached, cache, [])
  | None =>
      match Simple.fetchLinkedInJobs keyword location turns with
      | None => None
      | Some (jobs, done) =>
          Some (Json jobs, Simple.JobCache.set cache key jobs t_set, done)
      end
  end.

End SimpleServer.

(** [app.get('/jobs', ...)] of src/unnamed/part_000. *)
Module BatchServer.

(** [req.query]. A text parameter that is absent is [None]. For [limit] and
    [page], [None] is an absent or empty parameter, [Some None] a text that
    [Number] turns into [NaN], [Some (Some n)] a text that stands for the
    integer [n]. *)
Record request := {
  r_keyword : option string;
  r_location : option string;
  r_dateSincePosted : option string;
  r_jobType : option string;
  r_experienceLevel : option string;
  r_limit : option (option Z);
  r_page : option (option Z)
}.

(** [req.query.field || fallback]: always a text. *)
Definition text_or (field : option string) (fallback : string) : option string :=
  Some (Batch.field_or field fallback).

(** [req.query.field || fallback], as [Number] reads it later. *)
Definition number_or (field : option (option Z)) (fallback : Z) : option Z :=
  match field with
  | Some n => n
  | None => Some fallback
  end.

(** [queryOptions] *)
Definition queryOptions (req : request) : Batch.queryObj :=
  {| Batch.q_host := None;
     Batch.q_keyword := text_or (r_keyword req) "mechanical engineer";
     Batch.q_location := text_or (r_location req) "Philadelphia";
     Batch.q_dateSincePosted := text_or (r_dateSincePosted req) "past Week";
     Batch.q_jobType := text_or (r_jobType req) "full time";
     Batch.q_remoteFilter := None;
     Batch.q_salary := None;
     Batch.q_experienceLevel := text_or (r_experienceLevel req) "entry level";
     Batch.q_sortBy := None;
     Batch.q_limit := number_or (r_limit req) 100;
     Batch.q_page := number_or (r_page req) 0 |}.

(** The handler. *)
Definition jobs_endpoint (req : request)
           (cache : gmap string (CacheEntry (list JobRecord)))
           (t_get t_set : Z) (detail : string -> http_outcome)
           (outcomes : list http_outcome)
  : option (reply * gmap string (CacheEntry (list JobRecord)) * list effect) :=
  match Batch.query (queryOptions req) cache t_get t_set detail outcomes with
  | None => None
  | Some r => Some (Json (Batch.returned r), Batch.cache_after r, Batch.effects r)
  end.

(** A request with no parameter. *)
Definition bare : request :=
  {| r_keyword := None; r_location := None; r_dateSincePosted := None;
     r_jobType := None; r_experienceLevel := None; r_limit := None;
     r_page := None |}.

End BatchServer.

(* ===================================================================== *)
(** ** Vocabulary of the further properties *)
(* ===================================================================== *)



(** The list items a parser goes through: those of the document, none when
    the body is empty or cannot be loaded. *)
Definition items_of (data : body) : list element :=
  match data with
  | Html doc => list_items doc
  | EmptyBody | Unparsable => []
  end.

(** A record with its description blanked. *)
Definition without_description (r : JobRecord) : JobRecord :=
  {| position := position r; company := company r; location := location r;
     date := date r; salary := salary r; jobUrl := jobUrl r;
     companyLogo := companyLogo r; agoTime := agoTime r;
     description := EmptyString |}.

(** The query [q] asked with another limit. *)
Definition with_limit (n : Z) (q : Batch.Query) : Batch.Query :=
  {| Batch.host := Batch.host q; Batch.keyword := Batch.keyword q;
     Batch.location := Batch.location q;
     Batch.dateSincePosted := Batch.dateSincePosted q;
     Batch.jobType := Batch.jobType q; Batch.remoteFilter := Batch.remoteFilter q;
     Batch.salary := Batch.salary q; Batch.experienceLevel := Batch.experienceLevel q;
     Batch.sortBy := Batch.sortBy q; Batch.limit := n; Batch.page := Batch.page q |}.

(** The offsets of a crawl that is at offset [s]: each request asks for the
    current offset, and after it the crawl stays (a retry) or moves on by one
    batch of 25. *)
Fixpoint paged (s : Z) (offsets : list Z) : Prop :=
  match offsets with
  | [] => True
  | x :: rest => x = s /\ (paged s rest \/ paged (s + 25) rest)
  end.

(** The order in which [url] appends its parameters. *)
Definition param_order : list string :=
  [ "keywords"; "location"; "f_TPR"; "f_SB2"; "f_E"; "f_WT"; "f_JT"; "start"; "sortBy" ].

(** A list item with a title, a subtitle, a salary text and a link. *)
Definition full_card (title subtitle pay href : string) : element :=
  item (fun sel =>
          if String.eqb sel ".base-search-card__title" then title
          else if String.eqb sel ".base-search-card__subtitle" then subtitle
          else if String.eqb sel ".job-search-card__salary-info" then pay
          else EmptyString)
       (fun sel name =>
          if String.eqb sel ".base-card__full-link" && String.eqb name "href"
          then Some href else None).

(* ===================================================================== *)
(** * Properties *)
(* ===================================================================== *)

(** ** Listing extractor *)

Lemma fetchJobDescription_returns (o : http_outcome) :
  exists text, Batch.fetchJobDescription o = Normal text.
Proof.
  unfold Batch.fetchJobDescription, Batch.fetchJobDescription_try.
  destruct (axios_get status_2xx o) as [d|e]; simpl; [|eauto].
  destruct (cheerio_load d) as [doc|e]; simpl; eauto.
Qed.

(** What the callback of the batch parser makes of one item. *)
Lemma batch_parseJob_caught_spec (detail : string -> http_outcome) (job : element) :
  if JsString.truthy (extracted_position job) && JsString.truthy (extracted_company job)
  then exists r, Batch.parseJob_caught detail job = Some r
                 /\ position r = extracted_position job
                 /\ company r = extracted_company job
  else Batch.parseJob_caught detail job = None.
Proof.
  unfold Batch.parseJob_caught, Batch.parseJob.
  fold (extracted_position job). fold (extracted_company job).
  match goal with
  | |- context [bind ?c _] =>
      assert (Hd : exists text, c = Normal text)
  end.
  { destruct (JsString.truthy _); [apply fetchJobDescription_returns | eauto]. }
  destruct Hd as [text ->]. simpl.
  destruct (JsString.truthy (extracted_position job));
    destruct (JsString.truthy (extracted_company job)); simpl; eauto.
Qed.

Lemma batch_omap_filter (detail : string -> http_outcome) (items : list element) :
  map position_company (omap (Batch.parseJob_caught detail) items)
  = List.filter both_present (map extracted items).
Proof.
  induction items as [|job items IH]; [reflexivity|].
  cbn [omap list_omap map List.filter].
  pose proof (batch_parseJob_caught_spec detail job) as Hjob.
  change (both_present (extracted job))
    with (JsString.truthy (extracted_position job)
          && JsString.truthy (extracted_company job)).
  destruct (JsString.truthy (extracted_position job)
            && JsString.truthy (extracted_company job)).
  - destruct Hjob as (r & -> & Hp & Hc). cbn [map].
    rewrite IH. unfold position_company at 1, extracted at 1.
    now rewrite Hp, Hc.
  - rewrite Hjob. exact IH.
Qed.

(** C1 (as the code has it): the batch parser keeps exactly the items whose
    position and company are both non-empty, in order, so an item is dropped
    as soon as one of the two is empty; the simple parser drops no item. *)
Theorem parseJobList_kept (detail : string -> http_outcome) (doc : document) :
  map position_company (Batch.parseJobList detail (Html doc))
  = List.filter both_present (map extracted (list_items doc))
  /\ map position_company (Simple.parseJobList (Html doc))
     = map extracted (list_items doc).
Proof.
  split.
  - unfold Batch.parseJobList. simpl. apply batch_omap_filter.
  - unfold Simple.parseJobList. simpl.
    rewrite map_map. reflexivity.
Qed.

(** C1 (as stated, refuted): an item with an empty company and the position
    "Engineer" is dropped by the batch parser, and an item with neither is
    kept by the simple parser. *)
Lemma parseJobList_both_empty_rule_fails :
  extracted (card "Engineer" "") = ("Engineer", "")
  /\ Batch.parseJobList (fun _ => NetworkError) (fragment [card "Engineer" ""]) = []
  /\ extracted (card "" "") = ("", "")
  /\ length (Simple.parseJobList (fragment [card "" ""])) = 1%nat.
Proof. repeat split. Qed.

(** ** Query builder *)

Lemma replace_ws_from_plus_no_ws (s : string) (in_run : bool) :
  JsString.has_ws (JsString.replace_ws_from "+" in_run s) = false.
Proof.
  revert in_run. induction s as [|c s IH]; intros in_run; [reflexivity|].
  cbn [JsString.replace_ws_from].
  destruct (JsString.is_ws c) eqn:Hc.
  - destruct in_run; [apply IH|]. cbn. apply IH.
  - cbn [JsString.has_ws]. rewrite Hc. apply IH.
Qed.

Lemma or_else_empty (s : string) : JsString.or_else s "" = s.
Proof. destruct s; reflexivity. Qed.

Lemma plus_joined_spec (field : option string) :
  JsString.has_ws (Batch.plus_joined field) = false
  /\ forall s, field = Some s ->
       Batch.plus_joined field = JsString.replace_ws_runs "+" (JsString.trim s).
Proof.
  destruct field as [s|]; cbn [Batch.plus_joined].
  - rewrite or_else_empty. split.
    + apply replace_ws_from_plus_no_ws.
    + intros s' [= ->]. reflexivity.
  - split; [reflexivity | discriminate].
Qed.

Lemma In_append_if (p : string * string) name v params :
  In p params -> In p (Batch.append_if name v params).
Proof.
  unfold Batch.append_if, Url.append. destruct (JsObject.truthy v); [|tauto].
  intros H. apply in_or_app. now left.
Qed.

Lemma In_append (p : string * string) name v params :
  In p params -> In p (Url.append name v params).
Proof. intros H. apply in_or_app. now left. Qed.

Lemma In_append_if_str name (v : string) params :
  v <> "" -> In (name, v) (Batch.append_if name (JsObject.Str v) params).
Proof.
  intros Hv. unfold Batch.append_if. cbn.
  destruct v; [congruence|]. cbn. apply in_or_app. right. now left.
Qed.

Lemma url_params_keep (p : string * string) (q : Batch.Query) (start : Z) params :
  In p params ->
  In p (let params := Batch.append_if "f_TPR" (Batch.getDateSincePosted q) params in
        let params := Batch.append_if "f_SB2" (Batch.getSalary q) params in
        let params := Batch.append_if "f_E" (Batch.getExperienceLevel q) params in
        let params := Batch.append_if "f_WT" (Batch.getRemoteFilter q) params in
        let params := Batch.append_if "f_JT" (Batch.getJobType q) params in
        let params := Url.append "start" (JsString.of_Z (start + Batch.getPage q)) params in
        if String.eqb (Batch.sortBy q) "recent" then Url.append "sortBy" "DD" params
        else if String.eqb (Batch.sortBy q) "relevant" then Url.append "sortBy" "R" params
        else params).
Proof.
  intros H. cbv zeta.
  repeat match goal with
         | |- context [if ?b then _ else _] => destruct b
         end;
    repeat first [apply In_append | apply In_append_if]; exact H.
Qed.

Lemma string_append_assoc (a b c : string) :
  (a +:+ b) +:+ c = a +:+ (b +:+ c).
Proof.
  induction a as [|x a IH]; [reflexivity|].
  change (String x a +:+ b) with (String x (a +:+ b)).
  change (String x (a +:+ b) +:+ c) with (String x ((a +:+ b) +:+ c)).
  now rewrite IH.
Qed.

Lemma encodeURIComponent_app (a b : string) :
  Url.encodeURIComponent (a +:+ b)
  = Url.encodeURIComponent a +:+ Url.encodeURIComponent b.
Proof.
  induction a as [|c a IH]; [reflexivity|].
  change (String c a +:+ b) with (String c (a +:+ b)).
  cbn [Url.encodeURIComponent]. rewrite IH.
  symmetry. apply string_append_assoc.
Qed.

(** C2 (as the code has it): the batch [Query] trims the keyword and the
    location and puts one [+] in place of every run of white space, so neither
    holds white space any more, and hands them as they are to the form
    serializer under [keywords] and [location]; the simple pipeline escapes
    them with [encodeURIComponent], a space becoming [%20]. *)
Theorem keyword_location_encoding (o : Batch.queryObj) (start : Z) :
  let q := Batch.new_Query o in
  JsString.has_ws (Batch.keyword q) = false
  /\ JsString.has_ws (Batch.location q) = false
  /\ (forall kw, Batch.q_keyword o = Some kw ->
        Batch.keyword q = JsString.replace_ws_runs "+" (JsString.trim kw))
  /\ (forall loc, Batch.q_location o = Some loc ->
        Batch.location q = JsString.replace_ws_runs "+" (JsString.trim loc))
  /\ (Batch.keyword q <> "" ->
        In ("keywords", Batch.keyword q) (Batch.url_params q start))
  /\ (Batch.location q <> "" ->
        In ("location", Batch.location q) (Batch.url_params q start))
  /\ (forall a b loc,
        Simple.page_url (a +:+ " " +:+ b) loc start
        = "https://www.linkedin.com/jobs-guest/jobs/api/seeMoreJobPostings/search?keywords="
          +:+ Url.encodeURIComponent a +:+ "%20" +:+ Url.encodeURIComponent b
          +:+ "&location=" +:+ Url.encodeURIComponent loc
          +:+ "&start=" +:+ JsString.of_Z start).
Proof.
  intros q. subst q. cbn [Batch.new_Query Batch.keyword Batch.location].
  destruct (plus_joined_spec (Batch.q_keyword o)) as [Hk1 Hk2].
  destruct (plus_joined_spec (Batch.q_location o)) as [Hl1 Hl2].
  repeat split; auto.
  - intros Hne. unfold Batch.url_params.
    apply (url_params_keep _ _ start). apply In_append_if.
    apply In_append_if_str. exact Hne.
  - intros Hne. unfold Batch.url_params.
    apply (url_params_keep _ _ start).
    apply In_append_if_str. exact Hne.
  - intros a b loc. unfold Simple.page_url.
    rewrite !encodeURIComponent_app.
    change (Url.encodeURIComponent " ") with "%20".
    now rewrite !string_append_assoc.
Qed.

Lemma keyword_location_encoding_example :
  Batch.keyword (Batch.new_Query (Batch.keyword_only "  mechanical   engineer "))
  = "mechanical+engineer"
  /\ In ("keywords", "mechanical+engineer")
        (Batch.url_params (Batch.new_Query (Batch.keyword_only "  mechanical   engineer ")) 0)
  /\ Simple.page_url "mechanical engineer" "United States" 25
     = "https://www.linkedin.com/jobs-guest/jobs/api/seeMoreJobPostings/search?keywords=mechanical%20engineer&location=United%20States&start=25".
Proof.
  pose proof (keyword_location_encoding
                (Batch.keyword_only "  mechanical   engineer ") 0) as H.
  cbv zeta in H. destruct H as (_ & _ & Hk & _ & Hin & _ & _).
  split; [exact (Hk "  mechanical   engineer " eq_refl)|].
  split; [|reflexivity].
  refine (Hin _). vm_compute. discriminate.
Defined.

(** C2 (as stated, refuted): the space inside the keyword "mechanical
    engineer" reaches the URL neither as [%20] nor as the [+] of a form-encoded
    space; the [+] put in its place is escaped as [%2B]. *)
Lemma keyword_space_not_percent_encoded :
  Batch.url Batch.engineer_query 0
  = "https://www.linkedin.com/jobs-guest/jobs/api/seeMoreJobPostings/search?keywords=mechanical%2Bengineer&start=0"
  /\ Url.encodeURIComponent "mechanical engineer" = "mechanical%20engineer"
  /\ JsString.includes "mechanical%20engineer" (Batch.url Batch.engineer_query 0) = false
  /\ JsString.includes "%20" (Batch.url Batch.engineer_query 0) = false.
Proof. vm_compute. repeat split. Qed.

(** A value that is no key of the table and names no inherited property is
    looked up as the empty string, and its parameter is left out. *)
Lemma lookup_or_empty_unknown (table : list (string * string)) (key : string) :
  JsObject.own_get table key = None ->
  JsObject.prototype_get key = JsObject.Undefined ->
  Batch.lookup_or_empty table key = JsObject.Str ""
  /\ forall name params,
       Batch.append_if name (Batch.lookup_or_empty table key) params = params.
Proof.
  intros Hown Hproto. unfold Batch.lookup_or_empty, JsObject.get.
  rewrite Hown, Hproto. split; reflexivity.
Qed.

(** The four tables read through [toLowerCase] answer the same for every
    spelling of a value that differs in case only. *)
Lemma filters_ignore_case (q q' : Batch.Query) :
  JsString.toLowerCase (Batch.dateSincePosted q)
  = JsString.toLowerCase (Batch.dateSincePosted q') ->
  JsString.toLowerCase (Batch.experienceLevel q)
  = JsString.toLowerCase (Batch.experienceLevel q') ->
  JsString.toLowerCase (Batch.jobType q) = JsString.toLowerCase (Batch.jobType q') ->
  JsString.toLowerCase (Batch.remoteFilter q)
  = JsString.toLowerCase (Batch.remoteFilter q') ->
  Batch.getDateSincePosted q = Batch.getDateSincePosted q'
  /\ Batch.getExperienceLevel q = Batch.getExperienceLevel q'
  /\ Batch.getJobType q = Batch.getJobType q'
  /\ Batch.getRemoteFilter q = Batch.getRemoteFilter q'.
Proof.
  unfold Batch.getDateSincePosted, Batch.getExperienceLevel, Batch.getJobType,
    Batch.getRemoteFilter.
  intros -> -> -> ->. repeat split.
Qed.

Lemma experience_level_examples :
  Batch.url (Batch.new_Query (Batch.experience_only "Entry Level")) 0
  = "https://www.linkedin.com/jobs-guest/jobs/api/seeMoreJobPostings/search?f_E=2&start=0"
  /\ Batch.url (Batch.new_Query (Batch.experience_only "manager")) 0
     = "https://www.linkedin.com/jobs-guest/jobs/api/seeMoreJobPostings/search?start=0"
  /\ Batch.url (Batch.new_Query (Batch.experience_only "")) 0
     = "https://www.linkedin.com/jobs-guest/jobs/api/seeMoreJobPostings/search?start=0".
Proof. vm_compute. repeat split. Qed.

(** C9 (the code at the failing input): the experience level "constructor" is
    in no table, yet the lookup finds the property every object inherits, and
    the URL carries an [f_E] parameter. *)
Theorem inherited_property_is_sent :
  Batch.url (Batch.new_Query (Batch.experience_only "constructor")) 0
  = "https://www.linkedin.com/jobs-guest/jobs/api/seeMoreJobPostings/search?f_E=function+Object%28%29+%7B+%5Bnative+code%5D+%7D&start=0"
  /\ JsObject.own_get Batch.experienceRange "constructor" = None
  /\ In "f_E" (Url.names (Batch.url_params
                            (Batch.new_Query (Batch.experience_only "constructor")) 0)).
Proof. vm_compute. repeat split. now left. Qed.

(** ** Description enricher *)

(** C8: [fetchJobDescription] always returns a text; it is the sentinel when
    the request fails, when the page cannot be loaded, and when both the
    primary and the fallback selector give nothing but white space. *)
Theorem fetchJobDescription_sentinel (o : http_outcome) :
  (exists text, Batch.fetchJobDescription o = Normal text)
  /\ (forall e, axios_get status_2xx o = Abrupt e ->
        Batch.fetchJobDescription o = Normal "Description not available")
  /\ (forall data e,
        axios_get status_2xx o = Normal data -> cheerio_load data = Abrupt e ->
        Batch.fetchJobDescription o = Normal "Description not available")
  /\ (forall data doc,
        axios_get status_2xx o = Normal data -> cheerio_load data = Normal doc ->
        JsString.trim (select_text doc ".description__text .show-more-less-html") = "" ->
        JsString.trim (select_text doc ".show-more-less-html__markup") = "" ->
        Batch.fetchJobDescription o = Normal "Description not available").
Proof.
  split; [apply fetchJobDescription_returns|].
  unfold Batch.fetchJobDescription, Batch.fetchJobDescription_try.
  repeat split.
  - intros e ->. reflexivity.
  - intros data e -> Hload. cbn [bind]. rewrite Hload. reflexivity.
  - intros data doc -> Hload Hprimary Hfallback. cbn [bind].
    rewrite Hload. cbn [bind]. rewrite Hprimary. cbn.
    rewrite Hfallback. reflexivity.
Qed.

Lemma fetchJobDescription_sentinel_example :
  Batch.fetchJobDescription NetworkError = Normal "Description not available"
  /\ Batch.fetchJobDescription (Response 200 Unparsable)
     = Normal "Description not available"
  /\ Batch.fetchJobDescription (Response 200 (Html (detail_page "  " "")))
     = Normal "Description not available".
Proof.
  split; [|split].
  - destruct (fetchJobDescription_sentinel NetworkError) as (_ & H & _).
    apply (H (RequestFailed None)). reflexivity.
  - destruct (fetchJobDescription_sentinel (Response 200 Unparsable)) as (_ & _ & H & _).
    apply (H Unparsable ParseFailed); reflexivity.
  - destruct (fetchJobDescription_sentinel (Response 200 (Html (detail_page "  " ""))))
      as (_ & _ & _ & H).
    apply (H (Html (detail_page "  " "")) (detail_page "  " "")); reflexivity.
Defined.

(** ** Result cache *)

(** C7: in both caches a value that was set is read back while less than the
    TTL has passed and is absent once more than the TTL has passed; the TTL
    is 30 minutes in the simple pipeline and 60 minutes in the batch pipeline;
    setting a key again leaves only the new entry. *)
Theorem cache_set_then_get {A : Type} (cache : gmap string (CacheEntry A))
        (key : string) (value : A) (t0 t : Z) :
  (t - t0 < Simple.JobCache.TTL ->
     Simple.JobCache.get (Simple.JobCache.set cache key value t0) key t = Some value)
  /\ (Simple.JobCache.TTL < t - t0 ->
        Simple.JobCache.get (Simple.JobCache.set cache key value t0) key t = None)
  /\ (t - t0 < Batch.JobCache.TTL ->
        fst (Batch.JobCache.get (Batch.JobCache.set cache key value t0) key t) = Some value)
  /\ (Batch.JobCache.TTL < t - t0 ->
        fst (Batch.JobCache.get (Batch.JobCache.set cache key value t0) key t) = None)
  /\ Simple.JobCache.TTL = 30 * (60 * 1000)
  /\ Batch.JobCache.TTL = 60 * (60 * 1000)
  /\ (forall old t1,
        Simple.JobCache.set (Simple.JobCache.set cache key old t1) key value t0
        = Simple.JobCache.set cache key value t0)
  /\ (forall old t1,
        Batch.JobCache.set (Batch.JobCache.set cache key old t1) key value t0
        = Batch.JobCache.set cache key value t0).
Proof.
  unfold Simple.JobCache.get, Simple.JobCache.set,
    Batch.JobCache.get, Batch.JobCache.set.
  rewrite !lookup_insert_eq. cbn [timestamp data].
  repeat split.
  - intros H. apply Z.ltb_lt in H. now rewrite H.
  - intros H. destruct (t - t0 <? Simple.JobCache.TTL) eqn:E; [|reflexivity].
    apply Z.ltb_lt in E. lia.
  - intros H. destruct (t - t0 >? Batch.JobCache.TTL) eqn:E; [|reflexivity].
    apply Z.gtb_lt in E. lia.
  - intros H. apply Z.gtb_lt in H. now rewrite H.
  - intros old t1. apply insert_insert_eq.
  - intros old t1. apply insert_insert_eq.
Qed.

Lemma cache_set_then_get_example :
  Simple.JobCache.get (Simple.JobCache.set (∅ : gmap string (CacheEntry nat)) "k" 7%nat 1000)
                      "k" 1800999 = Some 7%nat
  /\ Simple.JobCache.get (Simple.JobCache.set (∅ : gmap string (CacheEntry nat)) "k" 7%nat 1000)
                         "k" 1801001 = None
  /\ fst (Batch.JobCache.get (Batch.JobCache.set (∅ : gmap string (CacheEntry nat)) "k" 7%nat 1000)
                             "k" 3600999) = Some 7%nat
  /\ fst (Batch.JobCache.get (Batch.JobCache.set (∅ : gmap string (CacheEntry nat)) "k" 7%nat 1000)
                             "k" 3601001) = None.
Proof.
  split; [|split; [|split]].
  - apply (cache_set_then_get (∅ : gmap string (CacheEntry nat)) "k" 7%nat 1000 1800999).
    reflexivity.
  - apply (cache_set_then_get (∅ : gmap string (CacheEntry nat)) "k" 7%nat 1000 1801001).
    reflexivity.
  - apply (cache_set_then_get (∅ : gmap string (CacheEntry nat)) "k" 7%nat 1000 3600999).
    reflexivity.
  - apply (cache_set_then_get (∅ : gmap string (CacheEntry nat)) "k" 7%nat 1000 3601001).
    reflexivity.
Defined.

(** ** Pagination, bounded-attempt variant *)

Lemma simple_loop_capped keyword location turns (st : Simple.crawl) :
  5 <= Simple.attempts st -> Simple.loop keyword location turns st = Some st.
Proof.
  intros H. apply Z.ltb_ge in H.
  destruct turns; cbn [Simple.loop]; now rewrite H.
Qed.

Lemma simple_loop_throws keyword location turns (st : Simple.crawl) e :
  Simple.attempts st < 5 ->
  Simple.loop keyword location (Simple.Throws e :: turns) st
  = Simple.loop keyword location turns (Simple.retry_later st).
Proof.
  intros H. apply Z.ltb_lt in H. cbn [Simple.loop]. now rewrite H.
Qed.

Lemma simple_parse_nonempty_not_falsy status data :
  status_2xx status = true -> Simple.parseJobList data <> [] ->
  Simple.safeRequest (Response status data) = Some data
  /\ Simple.falsy (Some data) = false.
Proof.
  intros Hs Hne. unfold Simple.safeRequest. cbn. rewrite Hs. cbn.
  split; [reflexivity|]. destruct data; try reflexivity. now elim Hne.
Qed.

Lemma simple_loop_page keyword location turns (st : Simple.crawl) status data :
  Simple.attempts st < 5 -> status_2xx status = true ->
  Simple.parseJobList data <> [] ->
  Simple.loop keyword location (Simple.Responds (Response status data) :: turns) st
  = Simple.loop keyword location turns
      {| Simple.jobs := Simple.jobs st ++ Simple.parseJobList data;
         Simple.start := Simple.start st + 25;
         Simple.attempts := 0;
         Simple.trace := Simple.trace st
                         ++ [Jitter 2000 2000;
                             Request (Simple.page_url keyword location (Simple.start st))] |}.
Proof.
  intros H Hs Hne. apply Z.ltb_lt in H. cbn [Simple.loop]. rewrite H.
  destruct (simple_parse_nonempty_not_falsy status data Hs Hne) as [Hreq Hf].
  unfold Simple.iteration, Simple.attempt. rewrite Hreq, Hf.
  destruct (Simple.parseJobList data) as [|r l]; [now elim Hne|]. reflexivity.
Qed.

Lemma simple_loop_empty_page keyword location turns (st : Simple.crawl) status data :
  Simple.attempts st < 5 -> status_2xx status = true ->
  Simple.parseJobList data = [] ->
  Simple.loop keyword location (Simple.Responds (Response status data) :: turns) st
  = Some {| Simple.jobs := Simple.jobs st;
            Simple.start := Simple.start st;
            Simple.attempts := Simple.attempts st;
            Simple.trace := Simple.trace st
                            ++ [Jitter 2000 2000;
                                Request (Simple.page_url keyword location (Simple.start st))] |}.
Proof.
  intros H Hs Hempty. apply Z.ltb_lt in H. cbn [Simple.loop]. rewrite H.
  assert (Hreq : Simple.safeRequest (Response status data) = Some data).
  { unfold Simple.safeRequest. cbn. now rewrite Hs. }
  unfold Simple.iteration, Simple.attempt. rewrite Hreq.
  destruct (Simple.falsy (Some data)); [reflexivity|].
  rewrite Hempty. reflexivity.
Qed.

(** C3: in [fetchLinkedInJobs] an error raised in a turn adds one to
    [attempts] and sleeps 5000 ms times the new count; a page with jobs puts
    [attempts] back to 0; with [attempts] at 5 the loop is over and the state,
    with the jobs gathered so far, is what comes back; so five raised errors
    in a row end the crawl with those jobs. *)
Theorem bounded_attempt_policy (keyword location : string) (st : Simple.crawl)
        (turns : list Simple.turn) :
  (Simple.attempts st < 5 -> forall e,
     Simple.loop keyword location (Simple.Throws e :: turns) st
     = Simple.loop keyword location turns
         {| Simple.jobs := Simple.jobs st;
            Simple.start := Simple.start st;
            Simple.attempts := Simple.attempts st + 1;
            Simple.trace := Simple.trace st
                            ++ [Backoff (5000 * (Simple.attempts st + 1))] |})
  /\ (Simple.attempts st < 5 -> forall status data,
        status_2xx status = true -> Simple.parseJobList data <> [] ->
        Simple.loop keyword location (Simple.Responds (Response status data) :: turns) st
        = Simple.loop keyword location turns
            {| Simple.jobs := Simple.jobs st ++ Simple.parseJobList data;
               Simple.start := Simple.start st + 25;
               Simple.attempts := 0;
               Simple.trace := Simple.trace st
                               ++ [Jitter 2000 2000;
                                   Request (Simple.page_url keyword location
                                                            (Simple.start st))] |})
  /\ (5 <= Simple.attempts st -> Simple.loop keyword location turns st = Some st)
  /\ (Simple.attempts st = 0 -> forall e1 e2 e3 e4 e5,
        Simple.loop keyword location
          (Simple.Throws e1 :: Simple.Throws e2 :: Simple.Throws e3
             :: Simple.Throws e4 :: Simple.Throws e5 :: turns) st
        = Some {| Simple.jobs := Simple.jobs st;
                  Simple.start := Simple.start st;
                  Simple.attempts := 5;
                  Simple.trace := Simple.trace st
                                  ++ [Backoff 5000; Backoff 10000; Backoff 15000;
                                      Backoff 20000; Backoff 25000] |}).
Proof.
  split; [|split; [|split]].
  - intros H e. now apply simple_loop_throws.
  - intros H status data Hs Hne. now apply simple_loop_page.
  - apply simple_loop_capped.
  - intros H0 e1 e2 e3 e4 e5. destruct st as [jobs start attempts trace].
    cbn [Simple.attempts Simple.jobs Simple.start Simple.trace] in *. subst attempts.
    do 5 (rewrite simple_loop_throws by (cbn; lia); unfold Simple.retry_later;
          cbn [Simple.attempts Simple.jobs Simple.start Simple.trace]).
    rewrite simple_loop_capped by (cbn; lia).
    rewrite <- !app_assoc. reflexivity.
Qed.

Lemma bounded_attempt_policy_example :
  Simple.fetchLinkedInJobs "nurse" "Ohio"
    [ Simple.Responds (Response 200 (fragment [card "Nurse" "Clinic"]));
      Simple.Throws UriMalformed; Simple.Throws UriMalformed; Simple.Throws UriMalformed;
      Simple.Throws UriMalformed; Simple.Throws UriMalformed ]
  = Some (Simple.parseJobList (fragment [card "Nurse" "Clinic"]),
          [ Jitter 2000 2000;
            Request "https://www.linkedin.com/jobs-guest/jobs/api/seeMoreJobPostings/search?keywords=nurse&location=Ohio&start=0";
            Backoff 5000; Backoff 10000; Backoff 15000; Backoff 20000; Backoff 25000 ]).
Proof.
  unfold Simple.fetchLinkedInJobs.
  destruct (bounded_attempt_policy "nurse" "Ohio" Simple.initial
              [ Simple.Throws UriMalformed; Simple.Throws UriMalformed;
                Simple.Throws UriMalformed; Simple.Throws UriMalformed;
                Simple.Throws UriMalformed ]) as (_ & Hpage & _).
  rewrite (Hpage ltac:(cbn; lia) 200 (fragment [card "Nurse" "Clinic"]) eq_refl
                 ltac:(discriminate)).
  match goal with
  | |- context [Simple.loop _ _ _ ?s] =>
      destruct (bounded_attempt_policy "nurse" "Ohio" s []) as (_ & _ & _ & Hfive)
  end.
  rewrite (Hfive eq_refl). reflexivity.
Defined.

(** ** Pagination, consecutive-error variant *)

Lemma fetchJobBatch_rejected detail (o : http_outcome) :
  Batch.rejected o = true -> exists e, Batch.fetchJobBatch detail o = Abrupt e.
Proof.
  unfold Batch.fetchJobBatch. destruct o as [status data|]; cbn.
  - intros H. apply negb_true_iff in H. rewrite H. cbn.
    destruct (decide (status = 429)) as [->|Hne]; [eauto|].
    destruct status as [|p|p]; eauto.
    repeat (destruct p as [p|p|]; eauto).
  - eauto.
Qed.

Lemma fetchJobBatch_accepted detail (data : body) :
  Batch.fetchJobBatch detail (Response 200 data)
  = Normal (Batch.parseJobList detail data).
Proof. reflexivity. Qed.

Lemma batch_loop_failure_below q detail outcomes (st : Batch.crawl) o :
  Batch.rejected o = true -> Batch.consecutiveErrors st + 1 < 3 ->
  Batch.loop q detail (o :: outcomes) st
  = Batch.loop q detail outcomes
      {| Batch.allJobs := Batch.allJobs st;
         Batch.start := Batch.start st;
         Batch.consecutiveErrors := Batch.consecutiveErrors st + 1;
         Batch.trace := Batch.trace st
                        ++ [Request (Batch.url q (Batch.start st));
                            Backoff (2 ^ (Batch.consecutiveErrors st + 1) * 1000)] |}.
Proof.
  intros Hr Hlt. destruct (fetchJobBatch_rejected detail o Hr) as [e He].
  cbn [Batch.loop]. unfold Batch.iteration. rewrite He.
  unfold Batch.failed, Batch.MAX_CONSECUTIVE_ERRORS.
  cbn [Batch.consecutiveErrors Batch.allJobs Batch.start Batch.trace].
  destruct (Batch.consecutiveErrors st + 1 >=? 3) eqn:E.
  - apply Z.geb_le in E. lia.
  - now rewrite <- app_assoc.
Qed.

Lemma batch_loop_failure_cap q detail outcomes (st : Batch.crawl) o :
  Batch.rejected o = true -> 3 <= Batch.consecutiveErrors st + 1 ->
  Batch.loop q detail (o :: outcomes) st
  = Some {| Batch.allJobs := Batch.allJobs st;
            Batch.start := Batch.start st;
            Batch.consecutiveErrors := Batch.consecutiveErrors st + 1;
            Batch.trace := Batch.trace st ++ [Request (Batch.url q (Batch.start st))] |}.
Proof.
  intros Hr Hge. destruct (fetchJobBatch_rejected detail o Hr) as [e He].
  cbn [Batch.loop]. unfold Batch.iteration. rewrite He.
  unfold Batch.failed, Batch.MAX_CONSECUTIVE_ERRORS.
  cbn [Batch.consecutiveErrors Batch.allJobs Batch.start Batch.trace].
  apply Z.geb_le in Hge. now rewrite Hge.
Qed.

Lemma batch_loop_empty_page q detail outcomes (st : Batch.crawl) o :
  Batch.fetchJobBatch detail o = Normal [] ->
  Batch.loop q detail (o :: outcomes) st
  = Some {| Batch.allJobs := Batch.allJobs st;
            Batch.start := Batch.start st;
            Batch.consecutiveErrors := Batch.consecutiveErrors st;
            Batch.trace := Batch.trace st ++ [Request (Batch.url q (Batch.start st))] |}.
Proof.
  intros Ho. cbn [Batch.loop]. unfold Batch.iteration. rewrite Ho. reflexivity.
Qed.

Lemma batch_loop_page q detail outcomes (st : Batch.crawl) o jobs :
  Batch.fetchJobBatch detail o = Normal jobs -> jobs <> [] ->
  Batch.limit q = 0 \/ Z.of_nat (length (Batch.allJobs st ++ jobs)) < Batch.limit q ->
  Batch.loop q detail (o :: outcomes) st
  = Batch.loop q detail outcomes
      {| Batch.allJobs := Batch.allJobs st ++ jobs;
         Batch.start := Batch.start st + 25;
         Batch.consecutiveErrors := 0;
         Batch.trace := Batch.trace st
                        ++ [Request (Batch.url q (Batch.start st)); Jitter 2000 1000] |}.
Proof.
  intros Ho Hne Hlimit. cbn [Batch.loop]. unfold Batch.iteration. rewrite Ho.
  unfold Batch.fetched.
  cbn [Batch.consecutiveErrors Batch.allJobs Batch.start Batch.trace].
  destruct jobs as [|r jobs]; [now elim Hne|]. cbn [length Nat.eqb].
  assert (Hgo : negb (Batch.limit q =? 0)
                && (Z.of_nat (length (Batch.allJobs st ++ r :: jobs)) >=? Batch.limit q)
                = false).
  { destruct Hlimit as [-> | Hlt]; [reflexivity|].
    apply andb_false_iff. right.
    destruct (_ >=? _) eqn:E; [|reflexivity]. apply Z.geb_le in E. lia. }
  rewrite Hgo. now rewrite <- app_assoc.
Qed.

Lemma batch_loop_limit q detail outcomes (st : Batch.crawl) o jobs :
  Batch.fetchJobBatch detail o = Normal jobs -> jobs <> [] ->
  0 < Batch.limit q ->
  Batch.limit q <= Z.of_nat (length (Batch.allJobs st ++ jobs)) ->
  Batch.loop q detail (o :: outcomes) st
  = Some {| Batch.allJobs := firstn (Z.to_nat (Batch.limit q)) (Batch.allJobs st ++ jobs);
            Batch.start := Batch.start st;
            Batch.consecutiveErrors := Batch.consecutiveErrors st;
            Batch.trace := Batch.trace st ++ [Request (Batch.url q (Batch.start st))] |}.
Proof.
  intros Ho Hne Hpos Hreach. cbn [Batch.loop]. unfold Batch.iteration. rewrite Ho.
  unfold Batch.fetched.
  cbn [Batch.consecutiveErrors Batch.allJobs Batch.start Batch.trace].
  destruct jobs as [|r jobs]; [now elim Hne|]. cbn [length Nat.eqb].
  assert (Hstop : negb (Batch.limit q =? 0)
                  && (Z.of_nat (length (Batch.allJobs st ++ r :: jobs)) >=? Batch.limit q)
                  = true).
  { apply andb_true_iff. split.
    - apply negb_true_iff, Z.eqb_neq. lia.
    - apply Z.geb_le. lia. }
  rewrite Hstop. unfold Batch.slice_to.
  destruct (Batch.limit q <? 0) eqn:E; [apply Z.ltb_lt in E; lia|]. reflexivity.
Qed.

(** When nothing fresh is cached for the query, [getJobs] is the loop, and
    what it stores depends on whether any job was gathered. *)
Lemma getJobs_miss q (cache : gmap string (CacheEntry (list JobRecord)))
      t_get t_set detail outcomes st :
  fst (Batch.JobCache.get cache (Batch.url q 0) t_get) = None ->
  Batch.loop q detail outcomes Batch.initial = Some st ->
  Batch.getJobs q cache t_get t_set detail outcomes
  = Some {| Batch.returned := Batch.allJobs st;
            Batch.cache_after :=
              if (0 <? length (Batch.allJobs st))%nat
              then Batch.JobCache.set (delete (Batch.url q 0) cache) (Batch.url q 0)
                                      (Batch.allJobs st) t_set
              else delete (Batch.url q 0) cache;
            Batch.effects := Batch.trace st |}.
Proof.
  intros Hmiss Hloop. unfold Batch.getJobs.
  unfold Batch.JobCache.get in *.
  destruct (cache !! Batch.url q 0) as [entry|] eqn:Hentry.
  - destruct (t_get - timestamp entry >? Batch.JobCache.TTL); [|discriminate].
    now rewrite Hloop.
  - rewrite Hloop. now rewrite (delete_id cache (Batch.url q 0) Hentry).
Qed.

(** C4 (as the code has it): a failed batch request adds one to
    [consecutiveErrors]; while the count stays below 3 the loop sleeps
    [2 ^ consecutiveErrors * 1000] ms and goes on, and the failure that brings
    it to 3 ends the loop at once, without a sleep, with the jobs gathered
    before; a page with jobs puts the count back to 0, so two failures, a
    page and two failures leave the loop running; a 429 does what any other
    failure does. *)
Theorem consecutive_error_policy (q : Batch.Query) (detail : string -> http_outcome)
        (st : Batch.crawl) (outcomes : list http_outcome) :
  (forall o, Batch.rejected o = true -> Batch.consecutiveErrors st + 1 < 3 ->
     Batch.loop q detail (o :: outcomes) st
     = Batch.loop q detail outcomes
         {| Batch.allJobs := Batch.allJobs st;
            Batch.start := Batch.start st;
            Batch.consecutiveErrors := Batch.consecutiveErrors st + 1;
            Batch.trace := Batch.trace st
                           ++ [Request (Batch.url q (Batch.start st));
                               Backoff (2 ^ (Batch.consecutiveErrors st + 1) * 1000)] |})
  /\ (forall o, Batch.rejected o = true -> 3 <= Batch.consecutiveErrors st + 1 ->
        Batch.loop q detail (o :: outcomes) st
        = Some {| Batch.allJobs := Batch.allJobs st;
                  Batch.start := Batch.start st;
                  Batch.consecutiveErrors := Batch.consecutiveErrors st + 1;
                  Batch.trace := Batch.trace st
                                 ++ [Request (Batch.url q (Batch.start st))] |})
  /\ (forall o jobs,
        Batch.fetchJobBatch detail o = Normal jobs -> jobs <> [] ->
        Batch.limit q = 0 \/ Z.of_nat (length (Batch.allJobs st ++ jobs)) < Batch.limit q ->
        Batch.loop q detail (o :: outcomes) st
        = Batch.loop q detail outcomes
            {| Batch.allJobs := Batch.allJobs st ++ jobs;
               Batch.start := Batch.start st + 25;
               Batch.consecutiveErrors := 0;
               Batch.trace := Batch.trace st
                              ++ [Request (Batch.url q (Batch.start st));
                                  Jitter 2000 1000] |})
  /\ (forall data o, Batch.rejected o = true ->
        Batch.iteration q detail (Response 429 data) st = Batch.iteration q detail o st)
  /\ (Batch.consecutiveErrors st = 0 -> forall f1 f2 page f3 f4 jobs,
        Batch.rejected f1 = true -> Batch.rejected f2 = true ->
        Batch.rejected f3 = true -> Batch.rejected f4 = true ->
        Batch.fetchJobBatch detail page = Normal jobs -> jobs <> [] ->
        Batch.limit q = 0 \/ Z.of_nat (length (Batch.allJobs st ++ jobs)) < Batch.limit q ->
        Batch.loop q detail (f1 :: f2 :: page :: f3 :: f4 :: outcomes) st
        = Batch.loop q detail outcomes
            {| Batch.allJobs := Batch.allJobs st ++ jobs;
               Batch.start := Batch.start st + 25;
               Batch.consecutiveErrors := 2;
               Batch.trace :=
                 Batch.trace st
                 ++ [Request (Batch.url q (Batch.start st)); Backoff 2000;
                     Request (Batch.url q (Batch.start st)); Backoff 4000;
                     Request (Batch.url q (Batch.start st)); Jitter 2000 1000;
                     Request (Batch.url q (Batch.start st + 25)); Backoff 2000;
                     Request (Batch.url q (Batch.start st + 25)); Backoff 4000] |})
  /\ (Batch.consecutiveErrors st = 0 -> forall f1 f2 f3,
        Batch.rejected f1 = true -> Batch.rejected f2 = true ->
        Batch.rejected f3 = true ->
        Batch.loop q detail (f1 :: f2 :: f3 :: outcomes) st
        = Some {| Batch.allJobs := Batch.allJobs st;
                  Batch.start := Batch.start st;
                  Batch.consecutiveErrors := 3;
                  Batch.trace :=
                    Batch.trace st
                    ++ [Request (Batch.url q (Batch.start st)); Backoff 2000;
                        Request (Batch.url q (Batch.start st)); Backoff 4000;
                        Request (Batch.url q (Batch.start st))] |}).
Proof.
  split; [|split; [|split; [|split; [|split]]]].
  - intros o. apply batch_loop_failure_below.
  - intros o. apply batch_loop_failure_cap.
  - intros o jobs. apply batch_loop_page.
  - intros data o Hr. unfold Batch.iteration.
    destruct (fetchJobBatch_rejected detail o Hr) as [e ->]. reflexivity.
  - intros H0 f1 f2 page f3 f4 jobs H1 H2 H3 H4 Hpage Hne Hlimit.
    destruct st as [all start errors trace].
    cbn [Batch.consecutiveErrors Batch.allJobs Batch.start Batch.trace] in *.
    subst errors.
    rewrite batch_loop_failure_below by (try assumption; cbn; lia).
    rewrite batch_loop_failure_below by (try assumption; cbn; lia).
    rewrite (batch_loop_page _ _ _ _ _ jobs) by assumption.
    rewrite batch_loop_failure_below by (try assumption; cbn; lia).
    rewrite batch_loop_failure_below by (try assumption; cbn; lia).
    cbn [Batch.consecutiveErrors Batch.allJobs Batch.start Batch.trace].
    rewrite <- !app_assoc. reflexivity.
  - intros H0 f1 f2 f3 H1 H2 H3.
    destruct st as [all start errors trace].
    cbn [Batch.consecutiveErrors Batch.allJobs Batch.start Batch.trace] in *.
    subst errors.
    rewrite batch_loop_failure_below by (try assumption; cbn; lia).
    rewrite batch_loop_failure_below by (try assumption; cbn; lia).
    rewrite batch_loop_failure_cap by (try assumption; cbn; lia).
    cbn [Batch.consecutiveErrors Batch.allJobs Batch.start Batch.trace].
    rewrite <- !app_assoc. reflexivity.
Qed.

Lemma consecutive_error_policy_example :
  Batch.loop (Batch.new_Query Batch.no_options) (fun _ => NetworkError)
    [ Response 500 EmptyBody; Response 429 EmptyBody;
      Response 200 (fragment [card "Nurse" "Clinic"]);
      NetworkError; Response 429 EmptyBody ]
    Batch.initial
  = None
  /\ exists st,
       Batch.loop (Batch.new_Query Batch.no_options) (fun _ => NetworkError)
         [ NetworkError; Response 429 EmptyBody; Response 503 EmptyBody ] Batch.initial
       = Some st
       /\ Batch.allJobs st = [] /\ backoffs (Batch.trace st) = [2000; 4000].
Proof.
  pose proof (consecutive_error_policy (Batch.new_Query Batch.no_options)
                (fun _ => NetworkError) Batch.initial [])
    as (_ & _ & _ & _ & Hrun & Hstop).
  split.
  - rewrite (Hrun eq_refl (Response 500 EmptyBody) (Response 429 EmptyBody)
                  (Response 200 (fragment [card "Nurse" "Clinic"]))
                  NetworkError (Response 429 EmptyBody)
                  (Batch.parseJobList (fun _ => NetworkError)
                                      (fragment [card "Nurse" "Clinic"]))
                  eq_refl eq_refl eq_refl eq_refl eq_refl
                  ltac:(discriminate) (or_introl eq_refl)).
    reflexivity.
  - eexists. split.
    + exact (Hstop eq_refl NetworkError (Response 429 EmptyBody) (Response 503 EmptyBody)
                   eq_refl eq_refl eq_refl).
    + split; reflexivity.
Defined.

(** C4 (as stated, refuted): of three failures in a row only the first two
    are followed by a sleep; after the third the loop ends without one. *)
Lemma third_failure_does_not_sleep :
  exists st,
    Batch.loop (Batch.new_Query Batch.no_options) (fun _ => NetworkError)
      [ NetworkError; NetworkError; NetworkError ] Batch.initial = Some st
    /\ Batch.consecutiveErrors st = 3
    /\ length (requests (Batch.trace st)) = 3%nat
    /\ backoffs (Batch.trace st) = [2 ^ 1 * 1000; 2 ^ 2 * 1000]
    /\ ~ In (Backoff (2 ^ 3 * 1000)) (Batch.trace st).
Proof.
  eexists. split; [reflexivity|]. cbn.
  repeat split. intros H. repeat (destruct H as [H|H]; [discriminate H|]). exact H.
Qed.

(** C5: with a limit above 0, the page that brings the gathered jobs to the
    limit or beyond ends the loop with exactly the first [limit] of them, and
    nothing is requested after it; [getJobs] then returns exactly [limit]
    jobs. *)
Theorem limit_truncates (q : Batch.Query) (detail : string -> http_outcome)
        (o : http_outcome) (outcomes : list http_outcome) (jobs : list JobRecord)
        (Hlimit : 0 < Batch.limit q)
        (Hpage : Batch.fetchJobBatch detail o = Normal jobs)
        (Hjobs : jobs <> []) :
  (forall st, Batch.limit q <= Z.of_nat (length (Batch.allJobs st ++ jobs)) ->
     exists st',
       Batch.loop q detail (o :: outcomes) st = Some st'
       /\ Batch.allJobs st' = firstn (Z.to_nat (Batch.limit q)) (Batch.allJobs st ++ jobs)
       /\ Z.of_nat (length (Batch.allJobs st')) = Batch.limit q
       /\ Batch.trace st' = Batch.trace st ++ [Request (Batch.url q (Batch.start st))])
  /\ (forall (cache : gmap string (CacheEntry (list JobRecord))) t_get t_set,
        fst (Batch.JobCache.get cache (Batch.url q 0) t_get) = None ->
        Batch.limit q <= Z.of_nat (length jobs) ->
        exists r,
          Batch.getJobs q cache t_get t_set detail (o :: outcomes) = Some r
          /\ Batch.returned r = firstn (Z.to_nat (Batch.limit q)) jobs
          /\ Z.of_nat (length (Batch.returned r)) = Batch.limit q
          /\ Batch.effects r = [Request (Batch.url q 0)]).
Proof.
  split.
  - intros st Hreach. eexists.
    split; [exact (batch_loop_limit q detail outcomes st o jobs Hpage Hjobs Hlimit Hreach)|].
    cbn [Batch.allJobs Batch.trace]. repeat split.
    rewrite length_firstn. lia.
  - intros cache t_get t_set Hmiss Hreach.
    eexists. split.
    + apply getJobs_miss; [exact Hmiss|].
      exact (batch_loop_limit q detail outcomes Batch.initial o jobs
               Hpage Hjobs Hlimit Hreach).
    + cbn [Batch.returned Batch.effects Batch.allJobs Batch.trace Batch.initial app].
      repeat split. rewrite length_firstn. lia.
Qed.

Lemma limit_truncates_example :
  exists r,
    Batch.getJobs (Batch.new_Query (Batch.limit_only 10)) ∅ 0 0 (fun _ => NetworkError)
                  [Response 200 (page_of 25)] = Some r
    /\ length (Batch.parseJobList (fun _ => NetworkError) (page_of 25)) = 25%nat
    /\ Z.of_nat (length (Batch.returned r)) = 10.
Proof.
  destruct (limit_truncates (Batch.new_Query (Batch.limit_only 10)) (fun _ => NetworkError)
              (Response 200 (page_of 25)) []
              (Batch.parseJobList (fun _ => NetworkError) (page_of 25))
              ltac:(reflexivity) eq_refl ltac:(discriminate)) as [_ H].
  destruct (H ∅ 0 0) as (r & Hr & _ & Hlen & _);
    [reflexivity | vm_compute; discriminate |].
  exists r. split; [exact Hr|]. split; [reflexivity | exact Hlen].
Defined.

(** C6: a page with no job ends the loop in both pipelines; with pages of 25,
    25 and 0 jobs the crawl returns the 50 jobs of the first two and has made
    three requests, whatever might have come after. *)
Theorem empty_page_ends_crawl (keyword location : string) (q : Batch.Query)
        (detail : string -> http_outcome) :
  (forall st turns status data,
     Simple.attempts st < 5 -> status_2xx status = true ->
     Simple.parseJobList data = [] ->
     Simple.loop keyword location (Simple.Responds (Response status data) :: turns) st
     = Some {| Simple.jobs := Simple.jobs st;
               Simple.start := Simple.start st;
               Simple.attempts := Simple.attempts st;
               Simple.trace := Simple.trace st
                               ++ [Jitter 2000 2000;
                                   Request (Simple.page_url keyword location
                                                            (Simple.start st))] |})
  /\ (forall turns s1 d1 s2 d2 s3 d3,
        status_2xx s1 = true -> status_2xx s2 = true -> status_2xx s3 = true ->
        length (Simple.parseJobList d1) = 25%nat ->
        length (Simple.parseJobList d2) = 25%nat ->
        length (Simple.parseJobList d3) = 0%nat ->
        exists found effects,
          Simple.fetchLinkedInJobs keyword location
            (Simple.Responds (Response s1 d1) :: Simple.Responds (Response s2 d2)
               :: Simple.Responds (Response s3 d3) :: turns)
          = Some (found, effects)
          /\ found = Simple.parseJobList d1 ++ Simple.parseJobList d2
          /\ length found = 50%nat
          /\ requests effects = [ Simple.page_url keyword location 0;
                                  Simple.page_url keyword location 25;
                                  Simple.page_url keyword location 50 ])
  /\ (forall st outcomes o,
        Batch.fetchJobBatch detail o = Normal [] ->
        Batch.loop q detail (o :: outcomes) st
        = Some {| Batch.allJobs := Batch.allJobs st;
                  Batch.start := Batch.start st;
                  Batch.consecutiveErrors := Batch.consecutiveErrors st;
                  Batch.trace := Batch.trace st
                                 ++ [Request (Batch.url q (Batch.start st))] |})
  /\ (forall (cache : gmap string (CacheEntry (list JobRecord))) t_get t_set
             outcomes o1 p1 o2 p2 o3,
        fst (Batch.JobCache.get cache (Batch.url q 0) t_get) = None ->
        Batch.limit q = 0 \/ 50 < Batch.limit q ->
        Batch.fetchJobBatch detail o1 = Normal p1 -> length p1 = 25%nat ->
        Batch.fetchJobBatch detail o2 = Normal p2 -> length p2 = 25%nat ->
        Batch.fetchJobBatch detail o3 = Normal [] ->
        exists r,
          Batch.getJobs q cache t_get t_set detail (o1 :: o2 :: o3 :: outcomes) = Some r
          /\ Batch.returned r = p1 ++ p2
          /\ length (Batch.returned r) = 50%nat
          /\ requests (Batch.effects r)
             = [Batch.url q 0; Batch.url q 25; Batch.url q 50]).
Proof.
  split; [|split; [|split]].
  - intros st turns status data. apply simple_loop_empty_page.
  - intros turns s1 d1 s2 d2 s3 d3 H1 H2 H3 L1 L2 L3.
    assert (N1 : Simple.parseJobList d1 <> []) by (intros E; now rewrite E in L1).
    assert (N2 : Simple.parseJobList d2 <> []) by (intros E; now rewrite E in L2).
    assert (E3 : Simple.parseJobList d3 = [])
      by (destruct (Simple.parseJobList d3); [reflexivity | discriminate]).
    unfold Simple.fetchLinkedInJobs.
    rewrite simple_loop_page by (try assumption; cbn; lia).
    rewrite simple_loop_page by (try assumption; cbn; lia).
    rewrite simple_loop_empty_page by (try assumption; cbn; lia).
    cbn [Simple.jobs Simple.trace Simple.start Simple.initial app].
    do 2 eexists. split; [reflexivity|]. split; [reflexivity|].
    split; [rewrite length_app; lia | reflexivity].
  - intros st outcomes o. apply batch_loop_empty_page.
  - intros cache t_get t_set outcomes o1 p1 o2 p2 o3 Hmiss Hlimit F1 L1 F2 L2 F3.
    assert (N1 : p1 <> []) by (intros E; now rewrite E in L1).
    assert (N2 : p2 <> []) by (intros E; now rewrite E in L2).
    eexists. split.
    + apply getJobs_miss; [exact Hmiss|].
      rewrite (batch_loop_page _ _ _ _ _ p1) by
        (try assumption; cbn [Batch.allJobs Batch.initial app]; lia).
      rewrite (batch_loop_page _ _ _ _ _ p2) by
        (try assumption; cbn [Batch.allJobs Batch.initial app];
         rewrite ?length_app; lia).
      apply batch_loop_empty_page. exact F3.
    + cbn [Batch.returned Batch.effects Batch.allJobs Batch.trace Batch.start
             Batch.initial app].
      split; [reflexivity|]. split; [rewrite length_app; lia | reflexivity].
Qed.

Lemma empty_page_ends_crawl_example :
  (exists found effects,
     Simple.fetchLinkedInJobs "nurse" "Ohio"
       [ Simple.Responds (Response 200 (page_of 25));
         Simple.Responds (Response 200 (page_of 25));
         Simple.Responds (Response 200 (page_of 0));
         Simple.Responds (Response 200 (page_of 25)) ]
     = Some (found, effects)
     /\ length found = 50%nat /\ length (requests effects) = 3%nat)
  /\ (exists r,
        Batch.getJobs (Batch.new_Query Batch.no_options) ∅ 0 0 (fun _ => NetworkError)
          [ Response 200 (page_of 25); Response 200 (page_of 25);
            Response 200 (page_of 0); Response 200 (page_of 25) ]
        = Some r
        /\ length (Batch.returned r) = 50%nat
        /\ length (requests (Batch.effects r)) = 3%nat).
Proof.
  destruct (empty_page_ends_crawl "nurse" "Ohio" (Batch.new_Query Batch.no_options)
              (fun _ => NetworkError)) as (_ & Hsimple & _ & Hbatch).
  split.
  - destruct (Hsimple [Simple.Responds (Response 200 (page_of 25))]
                      200 (page_of 25) 200 (page_of 25) 200 (page_of 0)
                      eq_refl eq_refl eq_refl eq_refl eq_refl eq_refl)
      as (found & effects & Hrun & _ & Hlen & Hreq).
    exists found, effects. split; [exact Hrun|]. split; [exact Hlen|].
    now rewrite Hreq.
  - destruct (Hbatch ∅ 0 0 [Response 200 (page_of 25)]
                     (Response 200 (page_of 25))
                     (Batch.parseJobList (fun _ => NetworkError) (page_of 25))
                     (Response 200 (page_of 25))
                     (Batch.parseJobList (fun _ => NetworkError) (page_of 25))
                     (Response 200 (page_of 0)))
      as (r & Hrun & _ & Hlen & Hreq);
      [reflexivity | left; reflexivity | reflexivity | reflexivity | reflexivity
       | reflexivity | reflexivity |].
    exists r. split; [exact Hrun|]. split; [exact Hlen|]. now rewrite Hreq.
Defined.

(** ** Result cache and the crawl *)

Lemma batch_iteration_trace q detail o (st : Batch.crawl) :
  exists rest,
    Batch.trace (state_of (Batch.iteration q detail o st))
    = Batch.trace st ++ Request (Batch.url q (Batch.start st)) :: rest.
Proof.
  unfold Batch.iteration.
  destruct (Batch.fetchJobBatch detail o) as [jobs|e].
  - unfold Batch.fetched.
    cbn [Batch.consecutiveErrors Batch.allJobs Batch.start Batch.trace].
    destruct (length jobs =? 0)%nat; [exists []; reflexivity|].
    destruct (_ && _); cbn [state_of Batch.trace];
      [exists [] | exists [Jitter 2000 1000]]; now rewrite <- ?app_assoc.
  - unfold Batch.failed.
    cbn [Batch.consecutiveErrors Batch.allJobs Batch.start Batch.trace].
    destruct (_ >=? _); cbn [state_of Batch.trace];
      [exists [] | eexists [_]]; now rewrite <- ?app_assoc.
Qed.

Lemma batch_loop_trace q detail outcomes :
  forall st st', Batch.loop q detail outcomes st = Some st' ->
    outcomes <> []
    /\ exists rest,
         Batch.trace st' = Batch.trace st ++ Request (Batch.url q (Batch.start st)) :: rest.
Proof.
  induction outcomes as [|o outcomes IH]; intros st st' Hloop; [discriminate|].
  split; [discriminate|].
  cbn [Batch.loop] in Hloop.
  destruct (batch_iteration_trace q detail o st) as [rest Hrest].
  destruct (Batch.iteration q detail o st) as [st1|st1]; cbn [state_of] in Hrest.
  - injection Hloop as <-. eauto.
  - destruct (IH _ _ Hloop) as [_ [rest' Hrest']].
    rewrite Hrest', Hrest. rewrite <- app_assoc. cbn [app]. eauto.
Qed.

(** C10 (as the code has it): when nothing fresh is cached for the query, a
    crawl that gathers no job sets no entry: the cache is the one before
    without the entry of the query's own key, which the first lookup deletes
    if it is there, expired; so it is the same cache when the key had no
    entry, the key is absent afterwards, and the same query asked again makes
    its first request; a crawl that gathers jobs stores them under
    [url(0)]. *)
Theorem empty_crawl_sets_nothing (q : Batch.Query)
        (cache : gmap string (CacheEntry (list JobRecord))) (t_get t_set : Z)
        (detail : string -> http_outcome) (outcomes : list http_outcome)
        (r : Batch.crawled)
        (Hmiss : fst (Batch.JobCache.get cache (Batch.url q 0) t_get) = None)
        (Hrun : Batch.getJobs q cache t_get t_set detail outcomes = Some r) :
  (Batch.returned r = [] ->
     Batch.cache_after r = delete (Batch.url q 0) cache
     /\ (cache !! Batch.url q 0 = None -> Batch.cache_after r = cache)
     /\ (forall key, key <> Batch.url q 0 -> Batch.cache_after r !! key = cache !! key)
     /\ (forall t, fst (Batch.JobCache.get (Batch.cache_after r) (Batch.url q 0) t) = None)
     /\ (forall t t' detail' outcomes' r',
           Batch.getJobs q (Batch.cache_after r) t t' detail' outcomes' = Some r' ->
           exists rest, Batch.effects r' = Request (Batch.url q 0) :: rest))
  /\ (Batch.returned r <> [] ->
        Batch.cache_after r
        = Batch.JobCache.set cache (Batch.url q 0) (Batch.returned r) t_set).
Proof.
  assert (Hloop : exists st, Batch.loop q detail outcomes Batch.initial = Some st).
  { unfold Batch.getJobs in Hrun.
    destruct (Batch.JobCache.get cache (Batch.url q 0) t_get) as [cached cache1].
    cbn [fst] in Hmiss. subst cached.
    destruct (Batch.loop q detail outcomes Batch.initial) as [st|]; [eauto | discriminate]. }
  destruct Hloop as [st Hloop].
  rewrite (getJobs_miss q cache t_get t_set detail outcomes st Hmiss Hloop) in Hrun.
  injection Hrun as <-. cbn [Batch.returned Batch.cache_after].
  split.
  - intros Hnone. rewrite Hnone. cbn [length Nat.ltb Nat.leb].
    assert (Hgone : forall t,
               fst (Batch.JobCache.get (delete (Batch.url q 0) cache) (Batch.url q 0) t)
               = None).
    { intros t. unfold Batch.JobCache.get. now rewrite lookup_delete_eq. }
    split; [reflexivity|]. split; [apply delete_id|].
    split; [intros key Hkey; now apply lookup_delete_ne|].
    split; [exact Hgone|].
    intros t t' detail' outcomes' r' Hagain.
    assert (Hloop' : exists st', Batch.loop q detail' outcomes' Batch.initial = Some st').
    { unfold Batch.getJobs in Hagain. specialize (Hgone t).
      destruct (Batch.JobCache.get _ (Batch.url q 0) t) as [cached cache1].
      cbn [fst] in Hgone. subst cached.
      destruct (Batch.loop q detail' outcomes' Batch.initial) as [st'|];
        [eauto | discriminate]. }
    destruct Hloop' as [st' Hloop'].
    rewrite (getJobs_miss q _ t t' detail' outcomes' st' (Hgone t) Hloop') in Hagain.
    injection Hagain as <-. cbn [Batch.effects].
    destruct (batch_loop_trace q detail' outcomes' _ _ Hloop') as [_ [rest Hrest]].
    exists rest. exact Hrest.
  - intros Hsome. destruct (Batch.allJobs st) as [|job jobs]; [now elim Hsome|].
    cbn [length Nat.ltb Nat.leb]. unfold Batch.JobCache.set.
    apply insert_delete_eq.
Qed.

Lemma empty_crawl_sets_nothing_example :
  exists r,
    Batch.getJobs (Batch.new_Query Batch.no_options) ∅ 0 5 (fun _ => NetworkError)
                  [Response 200 (page_of 0)] = Some r
    /\ Batch.returned r = []
    /\ Batch.cache_after r = ∅.
Proof.
  eexists. split; [reflexivity|]. split; [reflexivity|].
  eapply (empty_crawl_sets_nothing (Batch.new_Query Batch.no_options) ∅ 0 5
            (fun _ => NetworkError) [Response 200 (page_of 0)]);
    reflexivity.
Defined.

(** C10 (as stated, refuted): with an expired entry under the query's key, a
    crawl that gathers nothing leaves a cache that differs from the one it
    found: the entry is gone. *)
Lemma empty_crawl_evicts_expired_entry :
  exists r,
    Batch.getJobs Batch.plain_query Batch.stale_cache 3600001 3600002
                  (fun _ => NetworkError) [Response 200 (page_of 0)] = Some r
    /\ Batch.returned r = []
    /\ Batch.stale_cache !! Batch.url Batch.plain_query 0
       = Some {| data := [sample_record]; timestamp := 0 |}
    /\ Batch.cache_after r !! Batch.url Batch.plain_query 0 = None
    /\ Batch.cache_after r <> Batch.stale_cache.
Proof.
  set (q := Batch.plain_query). set (cache := Batch.stale_cache).
  assert (Hcache : cache !! Batch.url q 0
                   = Some {| data := [sample_record]; timestamp := 0 |})
    by apply lookup_singleton_eq.
  exists {| Batch.returned := [];
            Batch.cache_after := delete (Batch.url q 0) cache;
            Batch.effects := [Request (Batch.url q 0)] |}.
  split.
  - unfold Batch.getJobs, Batch.JobCache.get. rewrite Hcache. reflexivity.
  - cbn [Batch.returned Batch.cache_after].
    split; [reflexivity|]. split; [exact Hcache|].
    assert (Hgone : delete (Batch.url q 0) cache !! Batch.url q 0 = None)
      by apply lookup_delete_eq.
    split; [exact Hgone|].
    intros Heq. rewrite Heq in Hgone. congruence.
Qed.

(* ===================================================================== *)
(** * Further properties of the code *)
(* ===================================================================== *)

(** ** Request dispatcher of the simple pipeline *)

(** X1: [safeRequest] hands back the response data exactly for a status from
    200 to 299; every other status and every request that gets no response
    gives [null]. *)
Theorem safeRequest_data_iff (o : http_outcome) (data : body) :
  Simple.safeRequest o = Some data
  <-> exists status, o = Response status data /\ 200 <= status < 300.
Proof.
  unfold Simple.safeRequest. destruct o as [status d|]; cbn.
  - unfold status_2xx.
    destruct (200 <=? status) eqn:Hlo; destruct (status <? 300) eqn:Hhi; cbn;
      try apply Z.leb_le in Hlo; try apply Z.leb_gt in Hlo;
      try apply Z.ltb_lt in Hhi; try apply Z.ltb_ge in Hhi.
    + split.
      * intros [= ->]. exists status. split; [reflexivity | lia].
      * intros (s & [= <- <-] & _). reflexivity.
    + split; [discriminate|]. intros (s & [= <- <-] & Hs). lia.
    + split; [discriminate|]. intros (s & [= <- <-] & Hs). lia.
    + split; [discriminate|]. intros (s & [= <- <-] & Hs). lia.
  - split; [discriminate|]. intros (s & Hs & _). discriminate.
Qed.

(** ** Listing extractor *)



Lemma or_else_truthy (a b : string) :
  JsString.truthy b = true -> JsString.truthy (JsString.or_else a b) = true.
Proof.
  intros Hb. unfold JsString.or_else.
  destruct (JsString.truthy a) eqn:Ha; [exact Ha | exact Hb].
Qed.

Lemma fetchJobDescription_not_empty (o : http_outcome) (text : string) :
  Batch.fetchJobDescription o = Normal text -> JsString.truthy text = true.
Proof.
  unfold Batch.fetchJobDescription, Batch.fetchJobDescription_try.
  destruct (axios_get status_2xx o) as [b|e]; cbn; [|now intros [= <-]].
  destruct (cheerio_load b) as [doc|e]; cbn; [|now intros [= <-]].
  intros [= <-]. now apply or_else_truthy.
Qed.

(** What the callback of the batch parser puts into a record it keeps. *)
Lemma batch_parseJob_caught_Some (detail : string -> http_outcome) (job : element)
      (r : JobRecord) :
  Batch.parseJob_caught detail job = Some r ->
  JsString.truthy (position r) = true
  /\ JsString.truthy (company r) = true
  /\ salary r = JsString.or_else
                  (JsString.replace_ws_runs " "
                     (JsString.trim (find_text job ".job-search-card__salary-info")))
                  "Not specified"
  /\ jobUrl r = attr_or_empty (find_attr job ".base-card__full-link" "href")
  /\ (if JsString.truthy (jobUrl r)
      then Batch.fetchJobDescription (detail (jobUrl r)) = Normal (description r)
      else description r = "").
Proof.
  unfold Batch.parseJob_caught, Batch.parseJob.
  destruct (JsString.truthy (attr_or_empty (find_attr job ".base-card__full-link" "href")))
    eqn:Hurl.
  - destruct (fetchJobDescription_returns
                (detail (attr_or_empty (find_attr job ".base-card__full-link" "href"))))
      as [text Htext].
    rewrite Htext. cbn [bind].
    destruct (JsString.truthy (JsString.trim (find_text job ".base-search-card__title")))
      eqn:Hp;
      destruct (JsString.truthy (JsString.trim (find_text job ".base-search-card__subtitle")))
        eqn:Hc; cbn; try discriminate.
    intros [= <-]. cbn. rewrite Hurl. auto.
  - cbn [bind].
    destruct (JsString.truthy (JsString.trim (find_text job ".base-search-card__title")))
      eqn:Hp;
      destruct (JsString.truthy (JsString.trim (find_text job ".base-search-card__subtitle")))
        eqn:Hc; cbn; try discriminate.
    intros [= <-]. cbn. rewrite Hurl. auto.
Qed.

Lemma Forall_omap_Some {A B} (P : B -> Prop) (f : A -> option B) (l : list A) :
  (forall x y, f x = Some y -> P y) -> Forall P (omap f l).
Proof.
  intros H. induction l as [|x l IH]; cbn; [constructor|].
  destruct (f x) as [y|] eqn:E; [constructor; eauto | exact IH].
Qed.

Lemma batch_parseJobList_items (detail : string -> http_outcome) (data : body) :
  Batch.parseJobList detail data = omap (Batch.parseJob_caught detail) (items_of data).
Proof. destruct data; reflexivity. Qed.

Lemma simple_parseJobList_items (data : body) :
  Simple.parseJobList data = map Simple.parseJob (items_of data).
Proof. destruct data; reflexivity. Qed.


(** X3: every record of the batch parser has a position and a company, and
    its description is filled exactly when it has a job URL: then it is what
    [fetchJobDescription] returned for that URL, else it is empty. *)
Theorem batch_records_complete (detail : string -> http_outcome) (data : body) :
  Forall (fun r =>
            JsString.truthy (position r) = true
            /\ JsString.truthy (company r) = true
            /\ JsString.truthy (description r) = JsString.truthy (jobUrl r)
            /\ (if JsString.truthy (jobUrl r)
                then Batch.fetchJobDescription (detail (jobUrl r)) = Normal (description r)
                else description r = ""))
         (Batch.parseJobList detail data).
Proof.
  rewrite batch_parseJobList_items.
  apply Forall_omap_Some. intros job r Hr.
  destruct (batch_parseJob_caught_Some detail job r Hr) as (Hp & Hc & _ & _ & Hd).
  repeat split; try assumption.
  destruct (JsString.truthy (jobUrl r)); [|now rewrite Hd].
  exact (fetchJobDescription_not_empty _ _ Hd).
Qed.

Lemma batch_description_returns (detail : string -> http_outcome) (url : string) :
  exists text,
    (if JsString.truthy url then Batch.fetchJobDescription (detail url)
     else Normal EmptyString) = Normal text.
Proof.
  destruct (JsString.truthy url); [apply fetchJobDescription_returns | eauto].
Qed.

Lemma batch_parseJob_caught_listing (detail detail' : string -> http_outcome)
      (job : element) :
  option_map without_description (Batch.parseJob_caught detail job)
  = option_map without_description (Batch.parseJob_caught detail' job).
Proof.
  unfold Batch.parseJob_caught, Batch.parseJob.
  destruct (batch_description_returns detail
              (attr_or_empty (find_attr job ".base-card__full-link" "href")))
    as [text ->].
  destruct (batch_description_returns detail'
              (attr_or_empty (find_attr job ".base-card__full-link" "href")))
    as [text' ->].
  cbn [bind].
  destruct (negb _ || negb _); reflexivity.
Qed.

(** X4: what the detail requests answer changes nothing of a listing but the
    descriptions: the same items are kept, in the same order, with the same
    other fields, whichever enrichment requests fail. *)
Theorem enrichment_leaves_listing (detail detail' : string -> http_outcome)
        (data : body) :
  map without_description (Batch.parseJobList detail data)
  = map without_description (Batch.parseJobList detail' data).
Proof.
  rewrite !batch_parseJobList_items.
  induction (items_of data) as [|job items IH]; [reflexivity|].
  cbn [omap list_omap].
  pose proof (batch_parseJob_caught_listing detail detail' job) as Hjob.
  destruct (Batch.parseJob_caught detail job) as [r|];
    destruct (Batch.parseJob_caught detail' job) as [r'|]; cbn in Hjob;
    try discriminate.
  - cbn [map]. rewrite IH. f_equal. congruence.
  - exact IH.
Qed.

(** ** Description enricher *)

(** X5: for a page that loads, [fetchJobDescription] returns the trimmed text
    of the primary container when it is not empty, else that of the fallback
    container when it is not empty, else the sentinel; and whatever the
    request does, the text returned is never empty. *)
Theorem fetchJobDescription_selector_order (o : http_outcome) (status : Z)
        (doc : document) :
  Batch.fetchJobDescription (Response status (Html doc))
  = Normal
      (if status_2xx status then
         if JsString.truthy
              (JsString.trim (select_text doc ".description__text .show-more-less-html"))
         then JsString.trim (select_text doc ".description__text .show-more-less-html")
         else if JsString.truthy
                   (JsString.trim (select_text doc ".show-more-less-html__markup"))
              then JsString.trim (select_text doc ".show-more-less-html__markup")
              else "Description not available"
       else "Description not available")
  /\ exists text, Batch.fetchJobDescription o = Normal text
                  /\ JsString.truthy text = true.
Proof.
  split.
  - unfold Batch.fetchJobDescription, Batch.fetchJobDescription_try. cbn.
    destruct (status_2xx status); [|reflexivity]. cbn.
    unfold JsString.or_else.
    destruct (JsString.truthy
                (JsString.trim (select_text doc ".description__text .show-more-less-html")))
      eqn:Hp; cbn.
    + now rewrite Hp.
    + reflexivity.
  - destruct (fetchJobDescription_returns o) as [text Htext].
    exists text. split; [exact Htext|].
    exact (fetchJobDescription_not_empty o text Htext).
Qed.

(** ** Result caches *)

(** X6: at the very instant the TTL has passed since a value was set, the
    cache of the simple pipeline no longer has it, while the cache of the
    batch pipeline still returns it and keeps the entry. *)
Theorem cache_expiry_instant {A : Type} (cache : gmap string (CacheEntry A))
        (key : string) (value : A) (t0 : Z) :
  Simple.JobCache.get (Simple.JobCache.set cache key value t0) key
                      (t0 + Simple.JobCache.TTL) = None
  /\ Batch.JobCache.get (Batch.JobCache.set cache key value t0) key
                        (t0 + Batch.JobCache.TTL)
     = (Some value, Batch.JobCache.set cache key value t0).
Proof.
  unfold Simple.JobCache.get, Simple.JobCache.set,
    Batch.JobCache.get, Batch.JobCache.set.
  rewrite !lookup_insert_eq. cbn [timestamp data].
  replace (t0 + Simple.JobCache.TTL - t0) with Simple.JobCache.TTL by lia.
  replace (t0 + Batch.JobCache.TTL - t0) with Batch.JobCache.TTL by lia.
  split; reflexivity.
Qed.

(** X7: setting a key changes what neither cache answers for any other
    key. *)
Theorem cache_set_other_key {A : Type} (cache : gmap string (CacheEntry A))
        (key other : string) (value : A) (t0 t : Z) (Hother : key <> other) :
  Simple.JobCache.get (Simple.JobCache.set cache key value t0) other t
  = Simple.JobCache.get cache other t
  /\ fst (Batch.JobCache.get (Batch.JobCache.set cache key value t0) other t)
     = fst (Batch.JobCache.get cache other t).
Proof.
  unfold Simple.JobCache.get, Simple.JobCache.set,
    Batch.JobCache.get, Batch.JobCache.set.
  rewrite !lookup_insert_ne by exact Hother.
  split; [reflexivity|].
  destruct (cache !! other) as [entry|]; [|reflexivity].
  destruct (_ >? _); reflexivity.
Qed.

Lemma cache_set_other_key_example :
  Simple.JobCache.get
    (Simple.JobCache.set
       (Simple.JobCache.set (∅ : gmap string (CacheEntry nat)) "a" 1%nat 0) "b" 2%nat 5)
    "a" 10 = Some 1%nat
  /\ fst (Batch.JobCache.get
            (Batch.JobCache.set
               (Batch.JobCache.set (∅ : gmap string (CacheEntry nat)) "a" 1%nat 0)
               "b" 2%nat 5)
            "a" 10) = Some 1%nat.
Proof.
  destruct (cache_set_other_key
              (Simple.JobCache.set (∅ : gmap string (CacheEntry nat)) "a" 1%nat 0)
              "b" "a" 2%nat 5 10 ltac:(discriminate)) as [Hs Hb].
  split.
  - rewrite Hs. reflexivity.
  - unfold Batch.JobCache.set in *. unfold Simple.JobCache.set in Hb.
    rewrite Hb. reflexivity.
Defined.

Lemma batch_get_fst {A : Type} (cache : gmap string (CacheEntry A)) key now :
  fst (Batch.JobCache.get cache key now)
  = match cache !! key with
    | Some entry =>
        if now - timestamp entry >? Batch.JobCache.TTL then None else Some (data entry)
    | None => None
    end.
Proof.
  unfold Batch.JobCache.get. destruct (cache !! key) as [entry|]; [|reflexivity].
  destruct (_ >? _); reflexivity.
Qed.



Lemma batch_clear_lookup {A : Type} (cache : gmap string (CacheEntry A)) now key :
  Batch.JobCache.clear cache now !! key
  = match cache !! key with
    | Some entry =>
        if now - timestamp entry >? Batch.JobCache.TTL then None else Some entry
    | None => None
    end.
Proof.
  unfold Batch.JobCache.clear. rewrite map_lookup_filter.
  destruct (cache !! key) as [entry|]; [|reflexivity]. cbn.
  destruct (now - timestamp entry >? Batch.JobCache.TTL); cbn.
  - rewrite option_guard_False; [reflexivity | discriminate].
  - rewrite option_guard_True; reflexivity.
Qed.

(** X9: [clear] removes exactly the entries that have expired and keeps the
    others as they are; with a clock that does not run backwards, a read
    after it returns what it would have returned without it; clearing twice
    is clearing once. *)
Theorem batch_clear_sweeps_expired {A : Type} (cache : gmap string (CacheEntry A))
        (key : string) (now later : Z) (Hclock : now <= later) :
  Batch.JobCache.clear cache now !! key
  = match cache !! key with
    | Some entry =>
        if now - timestamp entry >? Batch.JobCache.TTL then None else Some entry
    | None => None
    end
  /\ fst (Batch.JobCache.get (Batch.JobCache.clear cache now) key later)
     = fst (Batch.JobCache.get cache key later)
  /\ Batch.JobCache.clear (Batch.JobCache.clear cache now) now
     = Batch.JobCache.clear cache now.
Proof.
  split; [apply batch_clear_lookup|]. split.
  - rewrite !batch_get_fst, batch_clear_lookup.
    destruct (cache !! key) as [entry|]; [|reflexivity].
    destruct (now - timestamp entry >? Batch.JobCache.TTL) eqn:Hexp; [|reflexivity].
    apply Z.gtb_lt in Hexp.
    destruct (later - timestamp entry >? Batch.JobCache.TTL) eqn:E; [reflexivity|].
    assert (~ Batch.JobCache.TTL < later - timestamp entry)
      by (intros Hlt; apply Z.gtb_lt in Hlt; congruence).
    lia.
  - apply map_eq. intros k. rewrite !batch_clear_lookup.
    destruct (cache !! k) as [entry|]; [|reflexivity].
    destruct (now - timestamp entry >? Batch.JobCache.TTL) eqn:Hexp; [reflexivity|].
    now rewrite Hexp.
Qed.

Lemma batch_clear_sweeps_expired_example :
  Batch.JobCache.clear
    (Batch.JobCache.set (∅ : gmap string (CacheEntry nat)) "a" 1%nat 0) 3600001 !! "a"
  = None
  /\ Batch.JobCache.clear
       (Batch.JobCache.set (∅ : gmap string (CacheEntry nat)) "a" 1%nat 0) 3600000 !! "a"
     = Some {| data := 1%nat; timestamp := 0 |}.
Proof.
  split.
  - destruct (batch_clear_sweeps_expired
                (Batch.JobCache.set (∅ : gmap string (CacheEntry nat)) "a" 1%nat 0)
                "a" 3600001 3600001 ltac:(lia)) as [H _].
    rewrite H. reflexivity.
  - destruct (batch_clear_sweeps_expired
                (Batch.JobCache.set (∅ : gmap string (CacheEntry nat)) "a" 1%nat 0)
                "a" 3600000 3600000 ltac:(lia)) as [H _].
    rewrite H. reflexivity.
Defined.

(** ** Query builder *)

Lemma append_if_app name (v : JsObject.value) (params : Url.URLSearchParams) :
  Batch.append_if name v params
  = params ++ (if JsObject.truthy v then [(name, JsObject.to_string v)] else []).
Proof.
  unfold Batch.append_if, Url.append.
  destruct (JsObject.truthy v); [reflexivity | now rewrite app_nil_r].
Qed.

(** The parameters of [url(start)], one piece for each statement of the
    function. *)
Lemma url_params_shape (q : Batch.Query) (start : Z) :
  Batch.url_params q start
  = (if JsString.truthy (Batch.keyword q) then [("keywords", Batch.keyword q)] else [])
    ++ (if JsString.truthy (Batch.location q) then [("location", Batch.location q)] else [])
    ++ (if JsObject.truthy (Batch.getDateSincePosted q)
        then [("f_TPR", JsObject.to_string (Batch.getDateSincePosted q))] else [])
    ++ (if JsObject.truthy (Batch.getSalary q)
        then [("f_SB2", JsObject.to_string (Batch.getSalary q))] else [])
    ++ (if JsObject.truthy (Batch.getExperienceLevel q)
        then [("f_E", JsObject.to_string (Batch.getExperienceLevel q))] else [])
    ++ (if JsObject.truthy (Batch.getRemoteFilter q)
        then [("f_WT", JsObject.to_string (Batch.getRemoteFilter q))] else [])
    ++ (if JsObject.truthy (Batch.getJobType q)
        then [("f_JT", JsObject.to_string (Batch.getJobType q))] else [])
    ++ [("start", JsString.of_Z (start + Batch.page q * 25))]
    ++ (if String.eqb (Batch.sortBy q) "recent" then [("sortBy", "DD")]
        else if String.eqb (Batch.sortBy q) "relevant" then [("sortBy", "R")]
        else []).
Proof.
  unfold Batch.url_params, Batch.getPage. cbv zeta.
  rewrite !append_if_app. unfold Url.append. cbn [JsObject.truthy JsObject.to_string app].
  destruct (String.eqb (Batch.sortBy q) "recent");
    [|destruct (String.eqb (Batch.sortBy q) "relevant")];
    rewrite <- ?app_assoc, ?app_nil_r; reflexivity.
Qed.


Lemma In_names_optional (x y v : string) (b : bool) :
  In x (Url.names (if b then [(y, v)] else [])) <-> (b = true /\ y = x).
Proof. destruct b; cbn; intuition congruence. Qed.

Lemma names_app (l k : Url.URLSearchParams) :
  Url.names (l ++ k) = Url.names l ++ Url.names k.
Proof. apply map_app. Qed.

Lemma In_names_sort (x : string) (q : Batch.Query) :
  In x (Url.names (if String.eqb (Batch.sortBy q) "recent" then [("sortBy", "DD")]
                   else if String.eqb (Batch.sortBy q) "relevant" then [("sortBy", "R")]
                   else []))
  <-> ((Batch.sortBy q = "recent" \/ Batch.sortBy q = "relevant") /\ "sortBy" = x).
Proof.
  destruct (String.eqb_spec (Batch.sortBy q) "recent") as [->|Hrecent].
  - cbn. intuition congruence.
  - destruct (String.eqb_spec (Batch.sortBy q) "relevant") as [->|Hrelevant].
    + cbn. intuition congruence.
    + cbn. intuition congruence.
Qed.

Lemma In_names_optional_eqb (x y v : string) (b : bool) :
  In x (Url.names (if b then [(y, v)] else [])) <-> String.eqb y x && b = true.
Proof.
  rewrite In_names_optional, andb_true_iff, String.eqb_eq. tauto.
Qed.

Ltac names_membership :=
  rewrite url_params_shape, !names_app, !in_app_iff, !In_names_optional_eqb,
    In_names_sort;
  cbn [Url.names map fst In String.eqb Ascii.eqb Bool.eqb andb];
  intuition (try discriminate; try congruence).

(** X10: which parameters [url] sends: [keywords] and [location] when they
    are not empty, each filter when its lookup is truthy, [start] always, and
    [sortBy] only for the exact values "recent" and "relevant". *)
Theorem url_parameters_present (q : Batch.Query) (start : Z) :
  (In "keywords" (Url.names (Batch.url_params q start))
   <-> JsString.truthy (Batch.keyword q) = true)
  /\ (In "location" (Url.names (Batch.url_params q start))
      <-> JsString.truthy (Batch.location q) = true)
  /\ (In "f_TPR" (Url.names (Batch.url_params q start))
      <-> JsObject.truthy (Batch.getDateSincePosted q) = true)
  /\ (In "f_SB2" (Url.names (Batch.url_params q start))
      <-> JsObject.truthy (Batch.getSalary q) = true)
  /\ (In "f_E" (Url.names (Batch.url_params q start))
      <-> JsObject.truthy (Batch.getExperienceLevel q) = true)
  /\ (In "f_WT" (Url.names (Batch.url_params q start))
      <-> JsObject.truthy (Batch.getRemoteFilter q) = true)
  /\ (In "f_JT" (Url.names (Batch.url_params q start))
      <-> JsObject.truthy (Batch.getJobType q) = true)
  /\ In "start" (Url.names (Batch.url_params q start))
  /\ (In "sortBy" (Url.names (Batch.url_params q start))
      <-> (Batch.sortBy q = "recent" \/ Batch.sortBy q = "relevant")).
Proof.
  repeat split; names_membership.
Qed.

Lemma optional_sublist {A} (b : bool) (x : A) :
  (if b then [x] else []) `sublist_of` [x].
Proof. destruct b; [reflexivity | apply sublist_nil_l]. Qed.

(** X11: the parameters of a URL come in one fixed order, [keywords],
    [location], [f_TPR], [f_SB2], [f_E], [f_WT], [f_JT], [start], [sortBy],
    and none occurs twice. *)
Theorem url_parameters_ordered (q : Batch.Query) (start : Z) :
  Url.names (Batch.url_params q start) `sublist_of` param_order
  /\ NoDup (Url.names (Batch.url_params q start)).
Proof.
  assert (Hsub : Url.names (Batch.url_params q start) `sublist_of` param_order).
  { rewrite url_params_shape, !names_app.
    change param_order
      with (["keywords"] ++ ["location"] ++ ["f_TPR"] ++ ["f_SB2"] ++ ["f_E"]
              ++ ["f_WT"] ++ ["f_JT"] ++ ["start"] ++ ["sortBy"]).
    repeat apply sublist_app;
      try (destruct (JsString.truthy _); [reflexivity | apply sublist_nil_l]);
      try (destruct (JsObject.truthy _); [reflexivity | apply sublist_nil_l]).
    - reflexivity.
    - destruct (String.eqb (Batch.sortBy q) "recent"); [reflexivity|].
      destruct (String.eqb (Batch.sortBy q) "relevant");
        [reflexivity | apply sublist_nil_l]. }
  split; [exact Hsub|].
  eapply sublist_NoDup; [|exact Hsub].
  apply (bool_decide_unpack _). vm_compute. exact I.
Qed.


Lemma table_code_truthy (table : list (string * string)) (key code : string) :
  Forall (fun kv => JsString.truthy (snd kv) = true) table ->
  JsObject.own_get table key = Some code -> JsString.truthy code = true.
Proof.
  induction 1 as [|[k v] table Hv _ IH]; cbn [JsObject.own_get]; [discriminate|].
  destruct (String.eqb k key); [intros [= <-]; exact Hv | exact IH].
Qed.

Lemma lookup_or_empty_own (table : list (string * string)) (key code : string) :
  JsObject.own_get table key = Some code -> JsString.truthy code = true ->
  Batch.lookup_or_empty table key = JsObject.Str code.
Proof.
  intros Hown Hcode. unfold Batch.lookup_or_empty, JsObject.get, JsObject.or_else.
  rewrite Hown. cbn. now rewrite Hcode.
Qed.

(** X13: a filter value that is a key of its table, in whatever case it is
    spelled for the four tables read in lower case, is sent with the code the
    table gives. *)
Theorem recognized_filters_sent (q : Batch.Query) (start : Z) (code : string) :
  (JsObject.own_get Batch.dateRange (JsString.toLowerCase (Batch.dateSincePosted q))
   = Some code -> In ("f_TPR", code) (Batch.url_params q start))
  /\ (JsObject.own_get Batch.salaryRange (Batch.salary q) = Some code ->
        In ("f_SB2", code) (Batch.url_params q start))
  /\ (JsObject.own_get Batch.experienceRange
                       (JsString.toLowerCase (Batch.experienceLevel q)) = Some code ->
        In ("f_E", code) (Batch.url_params q start))
  /\ (JsObject.own_get Batch.remoteFilterRange
                       (JsString.toLowerCase (Batch.remoteFilter q)) = Some code ->
        In ("f_WT", code) (Batch.url_params q start))
  /\ (JsObject.own_get Batch.jobTypeRange (JsString.toLowerCase (Batch.jobType q))
      = Some code -> In ("f_JT", code) (Batch.url_params q start)).
Proof.
  rewrite url_params_shape.
  unfold Batch.getDateSincePosted, Batch.getSalary, Batch.getExperienceLevel,
    Batch.getRemoteFilter, Batch.getJobType.
  repeat split; intros Hown;
    assert (Hcode : JsString.truthy code = true)
      by (eapply table_code_truthy; [|exact Hown]; repeat constructor);
    rewrite (lookup_or_empty_own _ _ _ Hown Hcode);
    cbn [JsObject.truthy JsObject.to_string]; rewrite Hcode;
    rewrite !in_app_iff; cbn [In]; tauto.
Qed.

Lemma recognized_filters_sent_example :
  In ("f_E", "2")
     (Batch.url_params (Batch.new_Query (Batch.experience_only "Entry LEVEL")) 0).
Proof.
  destruct (recognized_filters_sent
              (Batch.new_Query (Batch.experience_only "Entry LEVEL")) 0 "2")
    as (_ & _ & H & _).
  apply H. reflexivity.
Defined.




(** ** Batch requests *)

Lemma fetchJobBatch_status (detail : string -> http_outcome) (status : Z) (data : body) :
  Batch.fetchJobBatch detail (Response status data)
  = if status =? 200 then Normal (Batch.parseJobList detail data)
    else if status =? 429 then Abrupt RateLimitReached
    else Abrupt (RequestFailed (Some status)).
Proof.
  unfold Batch.fetchJobBatch. cbn [axios_get].
  destruct status as [|p|p]; try reflexivity.
  repeat (destruct p as [p|p|]; try reflexivity).
Qed.

(** X15: [fetchJobBatch] returns jobs only for status 200, and then the jobs
    parsed from the response; it throws the rate limit error exactly for
    status 429; so any other status, 201 or 204 as well, is a failure. *)
Theorem fetchJobBatch_outcomes (detail : string -> http_outcome) (o : http_outcome)
        (jobs : list JobRecord) :
  (Batch.fetchJobBatch detail o = Normal jobs
   <-> exists data, o = Response 200 data /\ jobs = Batch.parseJobList detail data)
  /\ (Batch.fetchJobBatch detail o = Abrupt RateLimitReached
      <-> exists data, o = Response 429 data)
  /\ (Batch.rejected o = true <-> exists e, Batch.fetchJobBatch detail o = Abrupt e).
Proof.
  destruct o as [status data|].
  - rewrite fetchJobBatch_status. cbn [Batch.rejected].
    destruct (Z.eqb_spec status 200) as [->|H200]; cbn [negb].
    + split; [|split].
      * split; [intros [= <-]; eauto | intros (d & [= <-] & ->); reflexivity].
      * split; [discriminate | intros (d & [=])].
      * split; [discriminate | intros (e & [=])].
    + destruct (Z.eqb_spec status 429) as [->|H429].
      * split; [|split].
        -- split; [discriminate | intros (d & [=] & _)].
        -- split; [eauto | reflexivity].
        -- split; eauto.
      * split; [|split].
        -- split; [discriminate | intros (d & [= -> _] & _); now elim H200].
        -- split; [discriminate | intros (d & [= -> _]); now elim H429].
        -- split; eauto.
  - cbn. split; [|split].
    + split; [discriminate | intros (d & [=] & _)].
    + split; [discriminate | intros (d & [=])].
    + split; eauto.
Qed.

(** ** Pagination: what ends a crawl *)

(** X16: a response whose body is empty, cannot be loaded or holds no list
    item is taken for the last page in both pipelines: the loop ends with the
    jobs gathered so far, without a retry and without a back-off. *)
Theorem blank_page_ends_crawl (keyword location : string) (q : Batch.Query)
        (detail : string -> http_outcome) (data : body) (status : Z)
        (st : Simple.crawl) (turns : list Simple.turn)
        (bst : Batch.crawl) (outcomes : list http_outcome)
        (Hblank : items_of data = [])
        (Hstatus : status_2xx status = true)
        (Hattempts : Simple.attempts st < 5) :
  Simple.loop keyword location (Simple.Responds (Response status data) :: turns) st
  = Some {| Simple.jobs := Simple.jobs st;
            Simple.start := Simple.start st;
            Simple.attempts := Simple.attempts st;
            Simple.trace := Simple.trace st
                            ++ [Jitter 2000 2000;
                                Request (Simple.page_url keyword location
                                                         (Simple.start st))] |}
  /\ Batch.loop q detail (Response 200 data :: outcomes) bst
     = Some {| Batch.allJobs := Batch.allJobs bst;
               Batch.start := Batch.start bst;
               Batch.consecutiveErrors := Batch.consecutiveErrors bst;
               Batch.trace := Batch.trace bst
                              ++ [Request (Batch.url q (Batch.start bst))] |}.
Proof.
  split.
  - apply simple_loop_empty_page; [exact Hattempts | exact Hstatus |].
    now rewrite simple_parseJobList_items, Hblank.
  - apply batch_loop_empty_page.
    rewrite fetchJobBatch_accepted, batch_parseJobList_items, Hblank. reflexivity.
Qed.

Lemma blank_page_ends_crawl_example :
  Simple.fetchLinkedInJobs "nurse" "Ohio"
    [ Simple.Responds (Response 200 Unparsable);
      Simple.Responds (Response 200 (page_of 25)) ]
  = Some ([], [ Jitter 2000 2000;
                Request (Simple.page_url "nurse" "Ohio" 0) ])
  /\ Batch.loop Batch.plain_query (fun _ => NetworkError)
       [ Response 200 EmptyBody; Response 200 (page_of 25) ] Batch.initial
     = Some {| Batch.allJobs := []; Batch.start := 0; Batch.consecutiveErrors := 0;
               Batch.trace := [Request (Batch.url Batch.plain_query 0)] |}.
Proof.
  split.
  - unfold Simple.fetchLinkedInJobs.
    destruct (blank_page_ends_crawl "nurse" "Ohio" Batch.plain_query
                (fun _ => NetworkError) Unparsable 200 Simple.initial
                [Simple.Responds (Response 200 (page_of 25))]
                Batch.initial [] eq_refl eq_refl ltac:(cbn; lia)) as [H _].
    rewrite H. reflexivity.
  - apply (blank_page_ends_crawl "nurse" "Ohio" Batch.plain_query
             (fun _ => NetworkError) EmptyBody 200 Simple.initial []
             Batch.initial [Response 200 (page_of 25)] eq_refl eq_refl).
    cbn. lia.
Defined.

(** X17: in the simple pipeline a request that fails ([safeRequest] gives
    [null]) ends the crawl at once: the jobs gathered so far are returned, the
    attempt counter is not touched and nothing is slept or retried. *)
Theorem failed_request_ends_simple_crawl (keyword location : string)
        (o : http_outcome) (st : Simple.crawl) (turns : list Simple.turn)
        (Hattempts : Simple.attempts st < 5)
        (Hfailed : Simple.safeRequest o = None) :
  Simple.loop keyword location (Simple.Responds o :: turns) st
  = Some {| Simple.jobs := Simple.jobs st;
            Simple.start := Simple.start st;
            Simple.attempts := Simple.attempts st;
            Simple.trace := Simple.trace st
                            ++ [Jitter 2000 2000;
                                Request (Simple.page_url keyword location
                                                         (Simple.start st))] |}.
Proof.
  apply Z.ltb_lt in Hattempts. cbn [Simple.loop]. rewrite Hattempts.
  unfold Simple.iteration, Simple.attempt. rewrite Hfailed. reflexivity.
Qed.

Lemma failed_request_ends_simple_crawl_example :
  Simple.fetchLinkedInJobs "nurse" "Ohio"
    [ Simple.Responds (Response 200 (page_of 25));
      Simple.Responds (Response 503 EmptyBody);
      Simple.Responds (Response 200 (page_of 25)) ]
  = Some (Simple.parseJobList (page_of 25),
          [ Jitter 2000 2000; Request (Simple.page_url "nurse" "Ohio" 0);
            Jitter 2000 2000; Request (Simple.page_url "nurse" "Ohio" 25) ]).
Proof.
  unfold Simple.fetchLinkedInJobs.
  rewrite simple_loop_page by (try reflexivity; try discriminate; cbn; lia).
  rewrite (failed_request_ends_simple_crawl "nurse" "Ohio" (Response 503 EmptyBody))
    by (try reflexivity; cbn; lia).
  reflexivity.
Defined.

(** ** Pagination: what a crawl requests and returns *)

Lemma requests_app (a b : list effect) : requests (a ++ b) = requests a ++ requests b.
Proof.
  induction a as [|e a IH]; [reflexivity|].
  destruct e; cbn; now rewrite IH.
Qed.

Lemma simple_loop_run (keyword location : string) (turns : list Simple.turn) :
  forall st st',
    Simple.loop keyword location turns st = Some st' ->
    exists n more,
      requests (Simple.trace st')
      = requests (Simple.trace st)
        ++ map (fun k => Simple.page_url keyword location
                           (Simple.start st + 25 * Z.of_nat k)) (seq 0 n)
      /\ Simple.jobs st' = Simple.jobs st ++ more
      /\ (n <= S (length more))%nat.
Proof.
  induction turns as [|t turns IH]; intros st st' Hloop.
  - cbn in Hloop. destruct (Simple.attempts st <? 5); [discriminate|].
    injection Hloop as <-. exists 0%nat, []. cbn. rewrite !app_nil_r. auto with arith.
  - cbn [Simple.loop] in Hloop.
    destruct (Simple.attempts st <? 5).
    2:{ injection Hloop as <-. exists 0%nat, []. cbn. rewrite !app_nil_r.
        auto with arith. }
    unfold Simple.iteration, Simple.attempt in Hloop.
    destruct t as [e|o].
    + apply IH in Hloop as (n & more & Hreq & Hjobs & Hn).
      exists n, more. cbn in Hreq, Hjobs.
      rewrite requests_app in Hreq. cbn in Hreq. rewrite app_nil_r in Hreq. auto.
    + assert (Hone : forall s,
                 requests (Simple.trace st
                           ++ [Jitter 2000 2000;
                               Request (Simple.page_url keyword location s)])
                 = requests (Simple.trace st)
                   ++ [Simple.page_url keyword location s])
        by (intros s; now rewrite requests_app).
      assert (Hstart : Simple.start st + 25 * Z.of_nat 0 = Simple.start st) by lia.
      destruct (Simple.falsy (Simple.safeRequest o)).
      * injection Hloop as <-. exists 1%nat, []. cbn [Simple.trace Simple.jobs].
        rewrite Hone, app_nil_r. cbn [seq map]. rewrite Hstart. auto with arith.
      * destruct (length _ =? 0)%nat eqn:Hlen.
        -- injection Hloop as <-. exists 1%nat, []. cbn [Simple.trace Simple.jobs].
           rewrite Hone, app_nil_r. cbn [seq map]. rewrite Hstart. auto with arith.
        -- apply IH in Hloop as (n & more & Hreq & Hjobs & Hn).
           cbn [Simple.trace Simple.jobs Simple.start] in Hreq, Hjobs.
           apply Nat.eqb_neq in Hlen.
           match type of Hjobs with
           | _ = (_ ++ ?new) ++ _ => exists (S n), (new ++ more)
           end.
           split; [|split].
           ++ rewrite Hreq, Hone, <- app_assoc. f_equal.
              cbn [seq map app]. rewrite Hstart. f_equal.
              rewrite <- seq_shift, map_map. apply map_ext. intros k. f_equal. lia.
           ++ now rewrite Hjobs, app_assoc.
           ++ rewrite length_app. lia.
Qed.

(** X18: the simple crawl asks for the pages one after the other, at
    [start] 0, 25, 50, ..., none skipped and none asked twice; and every
    request but the last one brought at least one job. *)
Theorem simple_pages_in_order (keyword location : string) (turns : list Simple.turn)
        (found : list JobRecord) (effects : list effect)
        (Hrun : Simple.fetchLinkedInJobs keyword location turns = Some (found, effects)) :
  exists n,
    requests effects
    = map (fun k => Simple.page_url keyword location (25 * Z.of_nat k)) (seq 0 n)
    /\ (n <= S (length found))%nat.
Proof.
  unfold Simple.fetchLinkedInJobs in Hrun.
  destruct (Simple.loop keyword location turns Simple.initial) as [st|] eqn:Hloop;
    [|discriminate].
  injection Hrun as <- <-.
  destruct (simple_loop_run keyword location turns _ _ Hloop) as (n & more & Hreq & Hjobs & Hn).
  exists n. cbn in Hreq, Hjobs. split.
  - rewrite Hreq. apply map_ext. intros k. reflexivity.
  - now rewrite Hjobs.
Qed.

Lemma simple_pages_in_order_example :
  exists found effects,
    Simple.fetchLinkedInJobs "nurse" "Ohio"
      [ Simple.Responds (Response 200 (page_of 25));
        Simple.Responds (Response 503 EmptyBody) ] = Some (found, effects)
    /\ exists n,
         requests effects
         = map (fun k => Simple.page_url "nurse" "Ohio" (25 * Z.of_nat k)) (seq 0 n)
         /\ (n <= S (length found))%nat.
Proof.
  exists (Simple.parseJobList (page_of 25)),
         [ Jitter 2000 2000; Request (Simple.page_url "nurse" "Ohio" 0);
           Jitter 2000 2000; Request (Simple.page_url "nurse" "Ohio" 25) ].
  split; [reflexivity|].
  apply (simple_pages_in_order "nurse" "Ohio"
           [ Simple.Responds (Response 200 (page_of 25));
             Simple.Responds (Response 503 EmptyBody) ]).
  reflexivity.
Defined.

Lemma batch_loop_within_limit (q : Batch.Query) (detail : string -> http_outcome)
      (outcomes : list http_outcome) :
  0 < Batch.limit q ->
  forall st st',
    Z.of_nat (length (Batch.allJobs st)) < Batch.limit q ->
    Batch.loop q detail outcomes st = Some st' ->
    Z.of_nat (length (Batch.allJobs st')) <= Batch.limit q.
Proof.
  intros Hlimit. induction outcomes as [|o outcomes IH]; intros st st' Hst Hloop;
    [discriminate|].
  cbn [Batch.loop] in Hloop. unfold Batch.iteration in Hloop.
  destruct (Batch.fetchJobBatch detail o) as [jobs|e].
  - unfold Batch.fetched in Hloop.
    cbn [Batch.allJobs Batch.start Batch.consecutiveErrors Batch.trace] in Hloop.
    destruct (length jobs =? 0)%nat.
    + injection Hloop as <-. cbn. lia.
    + destruct (negb (Batch.limit q =? 0)
                && (Z.of_nat (length (Batch.allJobs st ++ jobs)) >=? Batch.limit q))
        eqn:Hstop.
      * injection Hloop as <-. cbn [Batch.allJobs]. unfold Batch.slice_to.
        destruct (Batch.limit q <? 0) eqn:Hneg; [apply Z.ltb_lt in Hneg; lia|].
        rewrite length_firstn. lia.
      * apply (IH _ _) in Hloop; [exact Hloop|]. cbn [Batch.allJobs].
        apply andb_false_iff in Hstop as [Hzero|Hbelow].
        -- apply negb_false_iff, Z.eqb_eq in Hzero. lia.
        -- destruct (Z.of_nat (length (Batch.allJobs st ++ jobs)) >=? Batch.limit q)
             eqn:E; [discriminate|].
           assert (~ Batch.limit q <= Z.of_nat (length (Batch.allJobs st ++ jobs)))
             by (intros Hle; apply Z.geb_le in Hle; congruence).
           lia.
  - unfold Batch.failed in Hloop.
    cbn [Batch.allJobs Batch.start Batch.consecutiveErrors Batch.trace] in Hloop.
    destruct (_ >=? _).
    + injection Hloop as <-. cbn. lia.
    + apply (IH _ _) in Hloop; [exact Hloop|]. cbn. lia.
Qed.

(** X19: with a limit above 0, a crawl of the batch pipeline never returns
    more than [limit] jobs, however it ends. *)
Theorem crawl_within_limit (q : Batch.Query)
        (cache : gmap string (CacheEntry (list JobRecord))) (t_get t_set : Z)
        (detail : string -> http_outcome) (outcomes : list http_outcome)
        (r : Batch.crawled)
        (Hlimit : 0 < Batch.limit q)
        (Hmiss : fst (Batch.JobCache.get cache (Batch.url q 0) t_get) = None)
        (Hrun : Batch.getJobs q cache t_get t_set detail outcomes = Some r) :
  Z.of_nat (length (Batch.returned r)) <= Batch.limit q.
Proof.
  destruct (Batch.loop q detail outcomes Batch.initial) as [st|] eqn:Hloop.
  - rewrite (getJobs_miss q cache t_get t_set detail outcomes st Hmiss Hloop) in Hrun.
    injection Hrun as <-. cbn [Batch.returned].
    apply (batch_loop_within_limit q detail outcomes Hlimit Batch.initial st);
      [cbn; lia | exact Hloop].
  - unfold Batch.getJobs in Hrun.
    destruct (Batch.JobCache.get cache (Batch.url q 0) t_get) as [cached cache1].
    cbn [fst] in Hmiss. subst cached. rewrite Hloop in Hrun. discriminate.
Qed.

Lemma crawl_within_limit_example_run :
  Batch.getJobs (Batch.new_Query (Batch.limit_only 30)) ∅ 0 0 (fun _ => NetworkError)
                [Response 200 (page_of 25); NetworkError; Response 200 (page_of 25)]
  = Some {| Batch.returned := repeat sample_record 30;
            Batch.cache_after :=
              Batch.JobCache.set ∅ (Batch.url (Batch.new_Query (Batch.limit_only 30)) 0)
                                 (repeat sample_record 30) 0;
            Batch.effects :=
              [ Request (Batch.url (Batch.new_Query (Batch.limit_only 30)) 0);
                Jitter 2000 1000;
                Request (Batch.url (Batch.new_Query (Batch.limit_only 30)) 25);
                Backoff 2000;
                Request (Batch.url (Batch.new_Query (Batch.limit_only 30)) 25) ] |}.
Proof. reflexivity. Qed.

Lemma crawl_within_limit_example :
  exists r,
    Batch.getJobs (Batch.new_Query (Batch.limit_only 30)) ∅ 0 0 (fun _ => NetworkError)
                  [Response 200 (page_of 25); NetworkError; Response 200 (page_of 25)]
    = Some r
    /\ Z.of_nat (length (Batch.returned r)) <= 30.
Proof.
  eexists. split; [exact crawl_within_limit_example_run|].
  exact (crawl_within_limit (Batch.new_Query (Batch.limit_only 30)) ∅ 0 0
           (fun _ => NetworkError) _ _ eq_refl eq_refl crawl_within_limit_example_run).
Defined.

(** X20: a limit below 0 is not "no limit": the first page with jobs ends the
    crawl, and what is kept of the jobs gathered is all but the last
    [-limit] of them. *)
Theorem negative_limit_cuts_tail (q : Batch.Query) (detail : string -> http_outcome)
        (o : http_outcome) (outcomes : list http_outcome) (jobs : list JobRecord)
        (st : Batch.crawl)
        (Hlimit : Batch.limit q < 0)
        (Hpage : Batch.fetchJobBatch detail o = Normal jobs)
        (Hjobs : jobs <> []) :
  Batch.loop q detail (o :: outcomes) st
  = Some {| Batch.allJobs :=
              firstn (Z.to_nat (Z.of_nat (length (Batch.allJobs st ++ jobs))
                                + Batch.limit q))
                     (Batch.allJobs st ++ jobs);
            Batch.start := Batch.start st;
            Batch.consecutiveErrors := Batch.consecutiveErrors st;
            Batch.trace := Batch.trace st ++ [Request (Batch.url q (Batch.start st))] |}.
Proof.
  cbn [Batch.loop]. unfold Batch.iteration. rewrite Hpage. unfold Batch.fetched.
  cbn [Batch.consecutiveErrors Batch.allJobs Batch.start Batch.trace].
  destruct jobs as [|job jobs]; [now elim Hjobs|]. cbn [length Nat.eqb].
  assert (Hstop : negb (Batch.limit q =? 0)
                  && (Z.of_nat (length (Batch.allJobs st ++ job :: jobs)) >=? Batch.limit q)
                  = true).
  { apply andb_true_iff. split.
    - apply negb_true_iff, Z.eqb_neq. lia.
    - apply Z.geb_le. lia. }
  rewrite Hstop. unfold Batch.slice_to.
  apply Z.ltb_lt in Hlimit. now rewrite Hlimit.
Qed.

Lemma negative_limit_cuts_tail_example :
  exists st,
    Batch.loop (Batch.new_Query (Batch.limit_only (-5))) (fun _ => NetworkError)
               [Response 200 (page_of 25); Response 200 (page_of 25)] Batch.initial
    = Some st
    /\ length (Batch.allJobs st) = 20%nat
    /\ requests (Batch.trace st) = [Batch.url (Batch.new_Query (Batch.limit_only (-5))) 0].
Proof.
  eexists. split.
  - apply (negative_limit_cuts_tail (Batch.new_Query (Batch.limit_only (-5)))
             (fun _ => NetworkError) (Response 200 (page_of 25))
             [Response 200 (page_of 25)]
             (Batch.parseJobList (fun _ => NetworkError) (page_of 25))
             Batch.initial);
      [reflexivity | reflexivity | discriminate].
  - split; reflexivity.
Defined.

(** ** The batch crawl and its cache *)

Lemma getJobs_hit (q : Batch.Query) (cache : gmap string (CacheEntry (list JobRecord)))
      (entry : CacheEntry (list JobRecord)) t_get t_set detail outcomes :
  cache !! Batch.url q 0 = Some entry ->
  t_get - timestamp entry <= Batch.JobCache.TTL ->
  Batch.getJobs q cache t_get t_set detail outcomes
  = Some {| Batch.returned := data entry; Batch.cache_after := cache;
            Batch.effects := [] |}.
Proof.
  intros Hentry Hfresh. unfold Batch.getJobs, Batch.JobCache.get. rewrite Hentry.
  destruct (t_get - timestamp entry >? Batch.JobCache.TTL) eqn:E; [|reflexivity].
  apply Z.gtb_lt in E. lia.
Qed.

(** X21: the cache key of a query is its first-page URL, in which the limit
    does not appear: an entry that has not expired is returned whole,
    whatever limit is asked, without any request and without touching the
    cache. *)
Theorem cache_hit_ignores_limit (q : Batch.Query)
        (cache : gmap string (CacheEntry (list JobRecord)))
        (entry : CacheEntry (list JobRecord)) (t_get t_set : Z)
        (detail : string -> http_outcome) (outcomes : list http_outcome) (n : Z)
        (Hentry : cache !! Batch.url q 0 = Some entry)
        (Hfresh : t_get - timestamp entry <= Batch.JobCache.TTL) :
  Batch.url (with_limit n q) 0 = Batch.url q 0
  /\ Batch.getJobs (with_limit n q) cache t_get t_set detail outcomes
     = Some {| Batch.returned := data entry; Batch.cache_after := cache;
               Batch.effects := [] |}.
Proof.
  split; [reflexivity|].
  apply getJobs_hit; [exact Hentry | exact Hfresh].
Qed.

Lemma cache_hit_ignores_limit_example :
  exists r,
    Batch.getJobs (with_limit 1 Batch.plain_query)
                  (Batch.JobCache.set ∅ (Batch.url Batch.plain_query 0)
                                      [sample_record; sample_record] 0)
                  5 6 (fun _ => NetworkError) [] = Some r
    /\ length (Batch.returned r) = 2%nat /\ Batch.effects r = [].
Proof.
  eexists. split.
  - apply (cache_hit_ignores_limit Batch.plain_query
             (Batch.JobCache.set ∅ (Batch.url Batch.plain_query 0)
                                 [sample_record; sample_record] 0)
             {| data := [sample_record; sample_record]; timestamp := 0 |}
             5 6 (fun _ => NetworkError) [] 1).
    + apply lookup_insert_eq.
    + unfold Batch.JobCache.TTL; cbn [timestamp]; lia.
  - split; reflexivity.
Defined.

(** X22: after a crawl that found jobs, the same query asked again within
    the TTL gets the same jobs from the cache: nothing is requested and the
    cache stays as it is. *)
Theorem crawl_then_cached (q : Batch.Query)
        (cache : gmap string (CacheEntry (list JobRecord))) (t_get t_set : Z)
        (detail : string -> http_outcome) (outcomes : list http_outcome)
        (r : Batch.crawled) (t t' : Z) (detail' : string -> http_outcome)
        (outcomes' : list http_outcome)
        (Hmiss : fst (Batch.JobCache.get cache (Batch.url q 0) t_get) = None)
        (Hrun : Batch.getJobs q cache t_get t_set detail outcomes = Some r)
        (Hfound : Batch.returned r <> [])
        (Hfresh : t - t_set <= Batch.JobCache.TTL) :
  Batch.getJobs q (Batch.cache_after r) t t' detail' outcomes'
  = Some {| Batch.returned := Batch.returned r;
            Batch.cache_after := Batch.cache_after r;
            Batch.effects := [] |}.
Proof.
  destruct (Batch.loop q detail outcomes Batch.initial) as [st|] eqn:Hloop.
  - rewrite (getJobs_miss q cache t_get t_set detail outcomes st Hmiss Hloop) in Hrun.
    injection Hrun as <-. cbn [Batch.returned Batch.cache_after] in *.
    destruct (Batch.allJobs st) as [|job jobs] eqn:Hjobs; [now elim Hfound|].
    cbn [length Nat.ltb Nat.leb].
    apply (getJobs_hit q _ {| data := job :: jobs; timestamp := t_set |}).
    + apply lookup_insert_eq.
    + exact Hfresh.
  - unfold Batch.getJobs in Hrun.
    destruct (Batch.JobCache.get cache (Batch.url q 0) t_get) as [cached cache1].
    cbn [fst] in Hmiss. subst cached. rewrite Hloop in Hrun. discriminate.
Qed.

Lemma empty_cache_misses (key : string) (t : Z) :
  fst (Batch.JobCache.get (∅ : gmap string (CacheEntry (list JobRecord))) key t) = None.
Proof. reflexivity. Qed.

Lemma crawl_then_cached_example_run :
  Batch.getJobs Batch.plain_query ∅ 0 10 (fun _ => NetworkError)
                [Response 200 (page_of 2); Response 200 (page_of 0)]
  = Some {| Batch.returned := [sample_record; sample_record];
            Batch.cache_after :=
              Batch.JobCache.set ∅ (Batch.url Batch.plain_query 0)
                                 [sample_record; sample_record] 10;
            Batch.effects :=
              [ Request (Batch.url Batch.plain_query 0); Jitter 2000 1000;
                Request (Batch.url Batch.plain_query 25) ] |}.
Proof. reflexivity. Qed.

Lemma crawl_then_cached_example :
  exists r,
    Batch.getJobs Batch.plain_query ∅ 0 10 (fun _ => NetworkError)
                  [Response 200 (page_of 2); Response 200 (page_of 0)] = Some r
    /\ Batch.getJobs Batch.plain_query (Batch.cache_after r) 3600010 3600011
                     (fun _ => NetworkError) []
       = Some {| Batch.returned := Batch.returned r;
                 Batch.cache_after := Batch.cache_after r;
                 Batch.effects := [] |}.
Proof.
  eexists. split; [exact crawl_then_cached_example_run|].
  apply (crawl_then_cached Batch.plain_query ∅ 0 10 (fun _ => NetworkError) _ _
           3600010 3600011 (fun _ => NetworkError) []
           (empty_cache_misses _ 0) crawl_then_cached_example_run).
  - discriminate.
  - unfold Batch.JobCache.TTL. lia.
Defined.

(** ** The endpoints *)

Lemma simple_endpoint_hit (req : SimpleServer.request)
      (cache : gmap string (CacheEntry (list JobRecord)))
      (entry : CacheEntry (list JobRecord)) t t' turns :
  cache !! SimpleServer.cacheKey
             (SimpleServer.defaulted (SimpleServer.r_keyword req) "mechanical engineer")
             (SimpleServer.defaulted (SimpleServer.r_location req) "United States")
  = Some entry ->
  t - timestamp entry < Simple.JobCache.TTL ->
  SimpleServer.jobs_endpoint req cache t t' turns = Some (Json (data entry), cache, []).
Proof.
  intros Hentry Hfresh. unfold SimpleServer.jobs_endpoint, Simple.JobCache.get.
  rewrite Hentry. apply Z.ltb_lt in Hfresh. now rewrite Hfresh.
Qed.

(** X23: the endpoint of the simple pipeline stores whatever a crawl returns,
    an empty list as well: the same request made again before 30 minutes have
    passed gets the same reply from the cache, and nothing is requested. *)
Theorem simple_endpoint_caches_any_result (req : SimpleServer.request)
        (cache cache' : gmap string (CacheEntry (list JobRecord)))
        (t_get t_set t t' : Z) (turns turns' : list Simple.turn)
        (jobs : list JobRecord) (done : list effect)
        (Hmiss : Simple.JobCache.get cache
                   (SimpleServer.cacheKey
                      (SimpleServer.defaulted (SimpleServer.r_keyword req)
                                              "mechanical engineer")
                      (SimpleServer.defaulted (SimpleServer.r_location req)
                                              "United States")) t_get = None)
        (Hfirst : SimpleServer.jobs_endpoint req cache t_get t_set turns
                  = Some (Json jobs, cache', done))
        (Hfresh : t - t_set < Simple.JobCache.TTL) :
  SimpleServer.jobs_endpoint req cache' t t' turns' = Some (Json jobs, cache', []).
Proof.
  unfold SimpleServer.jobs_endpoint in Hfirst. rewrite Hmiss in Hfirst.
  destruct (Simple.fetchLinkedInJobs _ _ turns) as [[found effects]|]; [|discriminate].
  injection Hfirst as <- <- <-.
  apply (simple_endpoint_hit req _ {| data := found; timestamp := t_set |}).
  - apply lookup_insert_eq.
  - exact Hfresh.
Qed.

Lemma simple_endpoint_caches_any_result_example :
  SimpleServer.jobs_endpoint
    {| SimpleServer.r_keyword := Some "nurse"; SimpleServer.r_location := None |}
    (Simple.JobCache.set ∅ "nurse-United States" [] 7) 1000 1001 []
  = Some (Json [], Simple.JobCache.set ∅ "nurse-United States" [] 7, []).
Proof.
  apply (simple_endpoint_caches_any_result
           {| SimpleServer.r_keyword := Some "nurse"; SimpleServer.r_location := None |}
           ∅ (Simple.JobCache.set ∅ "nurse-United States" [] 7)
           5 7 1000 1001 [Simple.Responds NetworkError] [] []
           [Jitter 2000 2000; Request (Simple.page_url "nurse" "United States" 0)]).
  - reflexivity.
  - reflexivity.
  - unfold Simple.JobCache.TTL; lia.
Defined.

(** X24: the cache key of the simple endpoint joins keyword and location
    with a dash, so two different searches can share a key: the keyword
    [a-b] with the location [c], and the keyword [a] with the location
    [b-c]; the second is then answered with the jobs cached for the first. *)
Theorem simple_cache_key_collision (a b c : string)
        (cache cache' : gmap string (CacheEntry (list JobRecord)))
        (t_get t_set t t' : Z) (turns turns' : list Simple.turn)
        (jobs : list JobRecord) (done : list effect)
        (Hmiss : Simple.JobCache.get cache (SimpleServer.cacheKey (a +:+ "-" +:+ b) c)
                                     t_get = None)
        (Hfirst : SimpleServer.jobs_endpoint
                    {| SimpleServer.r_keyword := Some (a +:+ "-" +:+ b);
                       SimpleServer.r_location := Some c |}
                    cache t_get t_set turns
                  = Some (Json jobs, cache', done))
        (Hfresh : t - t_set < Simple.JobCache.TTL) :
  SimpleServer.cacheKey (a +:+ "-" +:+ b) c = SimpleServer.cacheKey a (b +:+ "-" +:+ c)
  /\ SimpleServer.jobs_endpoint
       {| SimpleServer.r_keyword := Some a;
          SimpleServer.r_location := Some (b +:+ "-" +:+ c) |}
       cache' t t' turns'
     = Some (Json jobs, cache', []).
Proof.
  assert (Hkey : SimpleServer.cacheKey (a +:+ "-" +:+ b) c
                 = SimpleServer.cacheKey a (b +:+ "-" +:+ c)).
  { unfold SimpleServer.cacheKey. now rewrite !string_append_assoc. }
  split; [exact Hkey|].
  unfold SimpleServer.jobs_endpoint in Hfirst.
  cbn [SimpleServer.r_keyword SimpleServer.r_location SimpleServer.defaulted] in Hfirst.
  rewrite Hmiss in Hfirst.
  destruct (Simple.fetchLinkedInJobs _ _ turns) as [[found effects]|]; [|discriminate].
  injection Hfirst as <- <- <-.
  apply (simple_endpoint_hit _ _ {| data := found; timestamp := t_set |}).
  - cbn [SimpleServer.r_keyword SimpleServer.r_location SimpleServer.defaulted].
    rewrite <- Hkey. apply lookup_insert_eq.
  - exact Hfresh.
Qed.

Lemma simple_cache_key_collision_example :
  SimpleServer.cacheKey "data-entry" "Ohio" = SimpleServer.cacheKey "data" "entry-Ohio"
  /\ SimpleServer.jobs_endpoint
       {| SimpleServer.r_keyword := Some "data";
          SimpleServer.r_location := Some "entry-Ohio" |}
       (Simple.JobCache.set ∅ "data-entry-Ohio" [] 7) 1000 1001 []
     = Some (Json [], Simple.JobCache.set ∅ "data-entry-Ohio" [] 7, []).
Proof.
  apply (simple_cache_key_collision "data" "entry" "Ohio"
           ∅ (Simple.JobCache.set ∅ "data-entry-Ohio" [] 7)
           5 7 1000 1001 [Simple.Responds NetworkError] [] []
           [Jitter 2000 2000; Request (Simple.page_url "data-entry" "Ohio" 0)]).
  - reflexivity.
  - reflexivity.
  - unfold Simple.JobCache.TTL; lia.
Defined.

(** X25: the endpoint of the batch pipeline passes neither a remote filter,
    nor a salary, nor a sort order, so no URL it asks for has an [f_WT],
    [f_SB2] or [sortBy] parameter; and a request without a limit is crawled
    with the limit 100. *)
Theorem batch_endpoint_query (req : BatchServer.request) (start : Z) :
  ~ In "f_WT" (Url.names (Batch.url_params
                            (Batch.new_Query (BatchServer.queryOptions req)) start))
  /\ ~ In "f_SB2" (Url.names (Batch.url_params
                                (Batch.new_Query (BatchServer.queryOptions req)) start))
  /\ ~ In "sortBy" (Url.names (Batch.url_params
                                 (Batch.new_Query (BatchServer.queryOptions req)) start))
  /\ Batch.limit (Batch.new_Query (BatchServer.queryOptions req))
     = match BatchServer.r_limit req with
       | None => 100
       | Some None => 0
       | Some (Some n) => n
       end.
Proof.
  assert (Hremote : Batch.getRemoteFilter (Batch.new_Query (BatchServer.queryOptions req))
                    = JsObject.Str "") by reflexivity.
  assert (Hsalary : Batch.getSalary (Batch.new_Query (BatchServer.queryOptions req))
                    = JsObject.Str "") by reflexivity.
  assert (Hsort : Batch.sortBy (Batch.new_Query (BatchServer.queryOptions req)) = "")
    by reflexivity.
  repeat split.
  - rewrite url_params_shape, Hremote, Hsalary, Hsort. cbn [JsObject.truthy JsString.truthy String.eqb].
    rewrite !names_app, !in_app_iff, !In_names_optional.
    cbn [Url.names map fst In Ascii.eqb Bool.eqb].
    intuition (try discriminate; try congruence).
  - rewrite url_params_shape, Hremote, Hsalary, Hsort. cbn [JsObject.truthy JsString.truthy String.eqb].
    rewrite !names_app, !in_app_iff, !In_names_optional.
    cbn [Url.names map fst In Ascii.eqb Bool.eqb].
    intuition (try discriminate; try congruence).
  - rewrite url_params_shape, Hremote, Hsalary, Hsort. cbn [JsObject.truthy JsString.truthy String.eqb].
    rewrite !names_app, !in_app_iff, !In_names_optional.
    cbn [Url.names map fst In Ascii.eqb Bool.eqb].
    intuition (try discriminate; try congruence).
  - cbn. destruct (BatchServer.r_limit req) as [[n|]|]; reflexivity.
Qed.

(** ** Offsets and back-off of a crawl *)

Lemma backoffs_app (a b : list effect) : backoffs (a ++ b) = backoffs a ++ backoffs b.
Proof.
  induction a as [|e a IH]; [reflexivity|].
  destruct e; cbn; now rewrite IH.
Qed.

Lemma batch_iteration_steps (q : Batch.Query) (detail : string -> http_outcome)
      (o : http_outcome) (st : Batch.crawl) :
  0 <= Batch.consecutiveErrors st < 3 ->
  let st' := state_of (Batch.iteration q detail o st) in
  requests (Batch.trace st')
  = requests (Batch.trace st) ++ [Batch.url q (Batch.start st)]
  /\ (Batch.start st' = Batch.start st \/ Batch.start st' = Batch.start st + 25)
  /\ (exists slept, backoffs (Batch.trace st') = backoffs (Batch.trace st) ++ slept
                    /\ Forall (fun ms => ms = 2000 \/ ms = 4000) slept)
  /\ match Batch.iteration q detail o st with
     | Continue _ => 0 <= Batch.consecutiveErrors st' < 3
     | Break _ => True
     end.
Proof.
  intros Herrors. unfold Batch.iteration.
  destruct (Batch.fetchJobBatch detail o) as [jobs|e].
  - unfold Batch.fetched.
    cbn [Batch.consecutiveErrors Batch.allJobs Batch.start Batch.trace].
    destruct (length jobs =? 0)%nat; [|destruct (_ && _)];
      cbn [state_of Batch.trace Batch.start Batch.consecutiveErrors];
      rewrite ?requests_app, ?backoffs_app; cbn [requests backoffs];
      rewrite ?app_nil_r;
      (split; [reflexivity|]); (split; [auto|]);
      (split; [exists []; rewrite app_nil_r; split; [reflexivity | constructor]|]);
      try exact I.
    unfold Batch.BATCH_SIZE. lia.
  - unfold Batch.failed, Batch.MAX_CONSECUTIVE_ERRORS.
    cbn [Batch.consecutiveErrors Batch.allJobs Batch.start Batch.trace].
    destruct (Batch.consecutiveErrors st + 1 >=? 3) eqn:Hcap;
      cbn [state_of Batch.trace Batch.start Batch.consecutiveErrors];
      rewrite ?requests_app, ?backoffs_app; cbn [requests backoffs];
      rewrite ?app_nil_r.
    + split; [reflexivity|]. split; [auto|].
      split; [exists []; rewrite app_nil_r; split; [reflexivity | constructor]|].
      exact I.
    + assert (Hlt : Batch.consecutiveErrors st + 1 < 3).
      { destruct (Z.lt_ge_cases (Batch.consecutiveErrors st + 1) 3) as [H|H];
          [exact H|]. apply Z.geb_le in H. congruence. }
      split; [reflexivity|]. split; [auto|]. split; [|lia].
      eexists. split; [reflexivity|]. constructor; [|constructor].
      assert (Hcase : Batch.consecutiveErrors st = 0 \/ Batch.consecutiveErrors st = 1)
        by lia.
      destruct Hcase as [-> | ->]; [left | right]; reflexivity.
Qed.

Lemma batch_loop_steps (q : Batch.Query) (detail : string -> http_outcome)
      (outcomes : list http_outcome) :
  forall st st',
    0 <= Batch.consecutiveErrors st < 3 ->
    Batch.loop q detail outcomes st = Some st' ->
    exists offsets slept,
      requests (Batch.trace st') = requests (Batch.trace st) ++ map (Batch.url q) offsets
      /\ paged (Batch.start st) offsets
      /\ backoffs (Batch.trace st') = backoffs (Batch.trace st) ++ slept
      /\ Forall (fun ms => ms = 2000 \/ ms = 4000) slept.
Proof.
  induction outcomes as [|o outcomes IH]; intros st st' Herrors Hloop; [discriminate|].
  cbn [Batch.loop] in Hloop.
  pose proof (batch_iteration_steps q detail o st Herrors) as Hstep. cbv zeta in Hstep.
  destruct (Batch.iteration q detail o st) as [st1|st1]; cbn [state_of] in Hstep;
    destruct Hstep as (Hreq & Hstart & (slept & Hslept & Hms) & Hnext).
  - injection Hloop as <-. exists [Batch.start st], slept.
    split; [exact Hreq|]. split; [cbn; auto|]. split; assumption.
  - destruct (IH _ _ Hnext Hloop) as (offsets & slept' & Hreq' & Hpaged & Hslept' & Hms').
    exists (Batch.start st :: offsets), (slept ++ slept').
    split; [|split; [|split]].
    + rewrite Hreq', Hreq, <- app_assoc. reflexivity.
    + cbn [paged]. split; [reflexivity|].
      destruct Hstart as [E|E]; rewrite E in Hpaged; auto.
    + now rewrite Hslept', Hslept, app_assoc.
    + now apply Forall_app.
Qed.

(** X26: a crawl of the batch pipeline asks for the offsets in order: the
    first request is for offset 0, and each later one is for the offset of
    the one before (a retry after a failure) or for that offset plus 25; no
    batch is skipped. *)
Theorem batch_offsets_in_order (q : Batch.Query)
        (cache : gmap string (CacheEntry (list JobRecord))) (t_get t_set : Z)
        (detail : string -> http_outcome) (outcomes : list http_outcome)
        (r : Batch.crawled)
        (Hmiss : fst (Batch.JobCache.get cache (Batch.url q 0) t_get) = None)
        (Hrun : Batch.getJobs q cache t_get t_set detail outcomes = Some r) :
  exists offsets,
    requests (Batch.effects r) = map (Batch.url q) offsets /\ paged 0 offsets.
Proof.
  destruct (Batch.loop q detail outcomes Batch.initial) as [st|] eqn:Hloop.
  - rewrite (getJobs_miss q cache t_get t_set detail outcomes st Hmiss Hloop) in Hrun.
    injection Hrun as <-. cbn [Batch.effects].
    destruct (batch_loop_steps q detail outcomes Batch.initial st ltac:(cbn; lia) Hloop)
      as (offsets & _ & Hreq & Hpaged & _).
    exists offsets. split; [exact Hreq | exact Hpaged].
  - unfold Batch.getJobs in Hrun.
    destruct (Batch.JobCache.get cache (Batch.url q 0) t_get) as [cached cache1].
    cbn [fst] in Hmiss. subst cached. rewrite Hloop in Hrun. discriminate.
Qed.

(** X27: the back-off sleeps of a crawl of the batch pipeline are of 2000 ms
    and 4000 ms only: the third failure in a row ends the crawl before any
    longer sleep. *)
Theorem batch_backoff_values (q : Batch.Query)
        (cache : gmap string (CacheEntry (list JobRecord))) (t_get t_set : Z)
        (detail : string -> http_outcome) (outcomes : list http_outcome)
        (r : Batch.crawled)
        (Hrun : Batch.getJobs q cache t_get t_set detail outcomes = Some r) :
  Forall (fun ms => ms = 2000 \/ ms = 4000) (backoffs (Batch.effects r)).
Proof.
  unfold Batch.getJobs in Hrun.
  destruct (Batch.JobCache.get cache (Batch.url q 0) t_get) as [[cached|] cache1].
  - injection Hrun as <-. constructor.
  - destruct (Batch.loop q detail outcomes Batch.initial) as [st|] eqn:Hloop;
      [|discriminate].
    injection Hrun as <-. cbn [Batch.effects].
    destruct (batch_loop_steps q detail outcomes Batch.initial st ltac:(cbn; lia) Hloop)
      as (_ & slept & _ & _ & Hslept & Hms).
    rewrite Hslept. exact Hms.
Qed.

Lemma batch_crawl_example_run :
  Batch.getJobs Batch.plain_query ∅ 0 9 (fun _ => NetworkError)
    [ NetworkError; Response 200 (page_of 1); Response 429 EmptyBody;
      Response 500 EmptyBody; Response 200 (page_of 0) ]
  = Some {| Batch.returned := Batch.parseJobList (fun _ => NetworkError) (page_of 1);
            Batch.cache_after :=
              Batch.JobCache.set ∅ (Batch.url Batch.plain_query 0)
                (Batch.parseJobList (fun _ => NetworkError) (page_of 1)) 9;
            Batch.effects :=
              [ Request (Batch.url Batch.plain_query 0); Backoff 2000;
                Request (Batch.url Batch.plain_query 0); Jitter 2000 1000;
                Request (Batch.url Batch.plain_query 25); Backoff 2000;
                Request (Batch.url Batch.plain_query 25); Backoff 4000;
                Request (Batch.url Batch.plain_query 25) ] |}.
Proof. reflexivity. Qed.

Lemma batch_offsets_in_order_example :
  exists r,
    Batch.getJobs Batch.plain_query ∅ 0 9 (fun _ => NetworkError)
      [ NetworkError; Response 200 (page_of 1); Response 429 EmptyBody;
        Response 500 EmptyBody; Response 200 (page_of 0) ] = Some r
    /\ exists offsets,
         requests (Batch.effects r) = map (Batch.url Batch.plain_query) offsets
         /\ paged 0 offsets.
Proof.
  eexists. split; [exact batch_crawl_example_run|].
  exact (batch_offsets_in_order Batch.plain_query ∅ 0 9 (fun _ => NetworkError) _ _
           eq_refl batch_crawl_example_run).
Defined.

Lemma batch_backoff_values_example :
  exists r,
    Batch.getJobs Batch.plain_query ∅ 0 9 (fun _ => NetworkError)
      [ NetworkError; Response 200 (page_of 1); Response 429 EmptyBody;
        Response 500 EmptyBody; Response 200 (page_of 0) ] = Some r
    /\ backoffs (Batch.effects r) = [2000; 2000; 4000]
    /\ Forall (fun ms => ms = 2000 \/ ms = 4000) (backoffs (Batch.effects r)).
Proof.
  eexists. split; [exact batch_crawl_example_run|]. split; [reflexivity|].
  exact (batch_backoff_values Batch.plain_query ∅ 0 9 (fun _ => NetworkError) _ _
           batch_crawl_example_run).
Defined.

Lemma simple_loop_backoffs (keyword location : string) (turns : list Simple.turn) :
  forall st st',
    0 <= Simple.attempts st ->
    Simple.loop keyword location turns st = Some st' ->
    exists slept,
      backoffs (Simple.trace st') = backoffs (Simple.trace st) ++ slept
      /\ Forall (fun ms => exists k, 1 <= k <= 5 /\ ms = 5000 * k) slept.
Proof.
  induction turns as [|t turns IH]; intros st st' Hattempts Hloop.
  - cbn in Hloop. destruct (Simple.attempts st <? 5); [discriminate|].
    injection Hloop as <-. exists []. rewrite app_nil_r. split; [reflexivity | constructor].
  - cbn [Simple.loop] in Hloop.
    destruct (Simple.attempts st <? 5) eqn:Hlt.
    2:{ injection Hloop as <-. exists []. rewrite app_nil_r.
        split; [reflexivity | constructor]. }
    apply Z.ltb_lt in Hlt.
    unfold Simple.iteration, Simple.attempt in Hloop.
    destruct t as [e|o].
    + apply IH in Hloop as (slept & Hslept & Hms); [|cbn; lia].
      cbn [Simple.retry_later Simple.trace] in Hslept.
      rewrite backoffs_app in Hslept. cbn [backoffs] in Hslept.
      exists (5000 * (Simple.attempts st + 1) :: slept).
      split; [now rewrite Hslept, <- app_assoc|].
      constructor; [|exact Hms]. exists (Simple.attempts st + 1). split; [lia | reflexivity].
    + assert (Hsame : backoffs (Simple.trace st
                                ++ [Jitter 2000 2000;
                                    Request (Simple.page_url keyword location
                                                             (Simple.start st))])
                      = backoffs (Simple.trace st))
        by (rewrite backoffs_app; cbn; apply app_nil_r).
      destruct (Simple.falsy (Simple.safeRequest o)).
      * injection Hloop as <-. exists []. cbn [Simple.trace].
        rewrite Hsame, app_nil_r. split; [reflexivity | constructor].
      * destruct (length _ =? 0)%nat.
        -- injection Hloop as <-. exists []. cbn [Simple.trace].
           rewrite Hsame, app_nil_r. split; [reflexivity | constructor].
        -- apply IH in Hloop as (slept & Hslept & Hms); [|cbn; lia].
           cbn [Simple.trace] in Hslept. rewrite Hsame in Hslept.
           exists slept. split; assumption.
Qed.

(** X28: the back-off sleeps of a crawl of the simple pipeline are of 5000,
    10000, 15000, 20000 or 25000 ms, and nothing else. *)
Theorem simple_backoff_values (keyword location : string) (turns : list Simple.turn)
        (found : list JobRecord) (effects : list effect)
        (Hrun : Simple.fetchLinkedInJobs keyword location turns = Some (found, effects)) :
  Forall (fun ms => exists k, 1 <= k <= 5 /\ ms = 5000 * k) (backoffs effects).
Proof.
  unfold Simple.fetchLinkedInJobs in Hrun.
  destruct (Simple.loop keyword location turns Simple.initial) as [st|] eqn:Hloop;
    [|discriminate].
  injection Hrun as <- <-.
  destruct (simple_loop_backoffs keyword location turns Simple.initial st
              ltac:(cbn; lia) Hloop) as (slept & Hslept & Hms).
  rewrite Hslept. exact Hms.
Qed.

Lemma simple_backoff_values_example :
  exists found effects,
    Simple.fetchLinkedInJobs "nurse" "Ohio"
      [ Simple.Throws UriMalformed; Simple.Throws UriMalformed;
        Simple.Responds NetworkError ] = Some (found, effects)
    /\ backoffs effects = [5000; 10000]
    /\ Forall (fun ms => exists k, 1 <= k <= 5 /\ ms = 5000 * k) (backoffs effects).
Proof.
  exists [], [ Backoff 5000; Backoff 10000; Jitter 2000 2000;
               Request (Simple.page_url "nurse" "Ohio" 0) ].
  split; [reflexivity|]. split; [reflexivity|].
  apply (simple_backoff_values "nurse" "Ohio"
           [ Simple.Throws UriMalformed; Simple.Throws UriMalformed;
             Simple.Responds NetworkError ]
           []
           [ Backoff 5000; Backoff 10000; Jitter 2000 2000;
             Request (Simple.page_url "nurse" "Ohio" 0) ]).
  reflexivity.
Defined.
